(** * stimpl: the evaluator of [stimpl/runtime.py] and its chained state

    A shallow embedding of [State], [EmptyState], [evaluate] and
    [run_stimpl], followed by the properties of the evaluator: evaluation
    order, the dynamic type checks, division, the relational operators on
    Unit, variables, assignment and the persistent binding chain. *)

From Stdlib Require Import ZArith String List Bool Lia.
From Stdlib Require Import PrimFloat FloatOps SpecFloat FloatAxioms.
From Stdlib Require Import QArith Qround.
Import ListNotations.

Set Warnings "-register-all".
Close Scope Q_scope.
Open Scope string_scope.
Open Scope Z_scope.

(** ** Host values

    The payloads that travel through [evaluate] are Python objects of five
    classes: [None], [int] (unbounded), [float] (IEEE 754 binary64), [str]
    and [bool]. *)

Inductive Value : Type :=
| PyNone
| PyInt (z : Z)
| PyFloat (f : float)
| PyStr (s : string)
| PyBool (b : bool).

(** [bool] is a subclass of [int]: [False] is 0 and [True] is 1. *)
Definition int_of_bool (b : bool) : Z := if b then 1 else 0.

Definition as_int (v : Value) : option Z :=
  match v with
  | PyInt z => Some z
  | PyBool b => Some (int_of_bool b)
  | _ => None
  end.

Definition flip_float_comparison (c : float_comparison) : float_comparison :=
  match c with
  | FLt => FGt
  | FGt => FLt
  | c' => c'
  end.

Definition float_comparison_of (c : comparison) : float_comparison :=
  match c with
  | Datatypes.Eq => FEq
  | Datatypes.Lt => FLt
  | Datatypes.Gt => FGt
  end.

(** Python compares a [float] with an [int] exactly, without rounding the
    integer: a finite float is [m * 2^e] for the mantissa and exponent
    that [Prim2SF] returns. *)
Definition float_compare_Z (f : float) (z : Z) : float_comparison :=
  match Prim2SF f with
  | S754_nan => FNotComparable
  | S754_infinity sign => if sign then FLt else FGt
  | S754_zero _ => float_comparison_of (0 ?= z)
  | S754_finite sign m e =>
      let sm := if sign then Z.neg m else Z.pos m in
      float_comparison_of
        (if 0 <=? e then sm * 2 ^ e ?= z else sm ?= z * 2 ^ (- e))
  end.

(** The three-way comparison behind [==], [!=], [<], [<=], [>] and [>=].
    [None] stands for two objects that Python does not order ([<] raises
    a [TypeError] on them, [==] answers [False]). *)
Definition py_compare (a b : Value) : option float_comparison :=
  match a, b with
  | PyFloat x, PyFloat y => Some (PrimFloat.compare x y)
  | PyFloat x, _ =>
      option_map (float_compare_Z x) (as_int b)
  | _, PyFloat y =>
      option_map (fun z => flip_float_comparison (float_compare_Z y z))
                 (as_int a)
  | PyStr x, PyStr y => Some (float_comparison_of (String.compare x y))
  | _, _ =>
      match as_int a, as_int b with
      | Some x, Some y => Some (float_comparison_of (x ?= y))
      | _, _ => None
      end
  end.

(** [a == b]. It never raises. *)
Definition py_eq (a b : Value) : bool :=
  match a, b with
  | PyNone, PyNone => true
  | _, _ =>
      match py_compare a b with
      | Some FEq => true
      | _ => false
      end
  end.

(** [a != b]. *)
Definition py_ne (a b : Value) : bool := negb (py_eq a b).

(** [a < b], [a <= b], [a > b] and [a >= b]; [None] is Python's
    [TypeError]. *)
Definition py_lt (a b : Value) : option Value :=
  option_map (fun c => PyBool match c with FLt => true | _ => false end)
             (py_compare a b).

Definition py_le (a b : Value) : option Value :=
  option_map (fun c => PyBool match c with FLt | FEq => true | _ => false end)
             (py_compare a b).

Definition py_gt (a b : Value) : option Value :=
  option_map (fun c => PyBool match c with FGt => true | _ => false end)
             (py_compare a b).

Definition py_ge (a b : Value) : option Value :=
  option_map (fun c => PyBool match c with FGt | FEq => true | _ => false end)
             (py_compare a b).

(** [bool(v)], the truth value that [while], [and], [or] and [not] test. *)
Definition truthy (v : Value) : bool :=
  match v with
  | PyNone => false
  | PyInt z => negb (z =? 0)
  | PyFloat f => negb (PrimFloat.eqb f 0%float)
  | PyStr s => negb (String.eqb s "")
  | PyBool b => b
  end.

(** [a and b], [a or b] and [not a]: the first two return one of their
    operands (both are already evaluated when [evaluate] applies them). *)
Definition py_and (a b : Value) : Value := if truthy a then b else a.
Definition py_or (a b : Value) : Value := if truthy a then a else b.
Definition py_not (a : Value) : Value := PyBool (negb (truthy a)).

(** Arithmetic. The operators are modelled on two integers (a [bool]
    counts as one), on two floats and, for [+], on two strings; these are
    the operands that the type tags of [evaluate] let through (see
    [evaluate_coherent] below). On any other pair the model answers [None]:
    Python raises a [TypeError] on most of them and coerces on the rest
    (an [int] met with a [float], a [str] repeated by an [int]); neither
    is modelled. Float arithmetic rounds as IEEE 754 binary64 does and
    never raises; [/] and [//] raise [ZeroDivisionError] on a zero
    divisor, which is [None] too. *)
Definition py_add (a b : Value) : option Value :=
  match a, b with
  | PyFloat x, PyFloat y => Some (PyFloat (x + y)%float)
  | PyStr x, PyStr y => Some (PyStr (String.append x y))
  | _, _ =>
      match as_int a, as_int b with
      | Some x, Some y => Some (PyInt (x + y))
      | _, _ => None
      end
  end.

Definition py_sub (a b : Value) : option Value :=
  match a, b with
  | PyFloat x, PyFloat y => Some (PyFloat (x - y)%float)
  | _, _ =>
      match as_int a, as_int b with
      | Some x, Some y => Some (PyInt (x - y))
      | _, _ => None
      end
  end.

Definition py_mul (a b : Value) : option Value :=
  match a, b with
  | PyFloat x, PyFloat y => Some (PyFloat (x * y)%float)
  | _, _ =>
      match as_int a, as_int b with
      | Some x, Some y => Some (PyInt (x * y))
      | _, _ => None
      end
  end.

(** [a / b] on floats. *)
Definition py_truediv (a b : Value) : option Value :=
  match a, b with
  | PyFloat x, PyFloat y =>
      if PrimFloat.eqb y 0%float then None else Some (PyFloat (x / y)%float)
  | _, _ => None
  end.

(** [a // b] on integers: Python rounds the quotient towards minus
    infinity, as [Z.div] does (the remainder takes the divisor's sign). *)
Definition py_floordiv (a b : Value) : option Value :=
  match as_int a, as_int b with
  | Some x, Some y => if y =? 0 then None else Some (PyInt (x / y))
  | _, _ => None
  end.

(** ** Type markers, errors and expressions *)

(** Modelled from the spec: [stimpl/types.py] is not among the sources.
    A type marker is an opaque tag from a closed set of five; two markers
    are equal iff they denote the same case. *)
Inductive Type_ : Type := Unit | Integer | FloatingPoint | String | Boolean.

Definition Type_eqb (a b : Type_) : bool :=
  match a, b with
  | Unit, Unit | Integer, Integer | FloatingPoint, FloatingPoint
  | String, String | Boolean, Boolean => true
  | _, _ => false
  end.

(** [a != b] on type markers. *)
Definition Type_neb (a b : Type_) : bool := negb (Type_eqb a b).

(** Modelled from the spec: [stimpl/errors.py] is not among the sources.
    The three error kinds of the evaluator; the message each one carries
    is not modelled. [HostError] is not one of them: it stands for an
    exception of the host operators, or a pair of operands outside the
    modelled ones (see the arithmetic above). *)
Inductive Error : Type :=
| InterpSyntaxError
| InterpTypeError
| InterpMathError
| HostError.

(** Modelled from the spec: [stimpl/expression.py] is not among the
    sources. One constructor per expression kind; a literal holds a
    payload of its own class, and the variable node of [Assign] is given
    by its name, the one field [evaluate] reads from it. *)
Inductive Expr : Type :=
| Ren
| IntLiteral (literal : Z)
| FloatingPointLiteral (literal : float)
| StringLiteral (literal : string)
| BooleanLiteral (literal : bool)
| Print (to_print : Expr)
| Sequence (exprs : list Expr)
| Program (exprs : list Expr)
| Variable_ (variable_name : string)
| Assign (variable_name : string) (value : Expr)
| Add (left right : Expr)
| Subtract (left right : Expr)
| Multiply (left right : Expr)
| Divide (left right : Expr)
| And (left right : Expr)
| Or (left right : Expr)
| Not (expr : Expr)
| If (condition true_ false_ : Expr)
| Lt (left right : Expr)
| Lte (left right : Expr)
| Gt (left right : Expr)
| Gte (left right : Expr)
| Eq (left right : Expr)
| Ne (left right : Expr)
| While (condition body : Expr).

(** ** Interpreter state *)

(** [Frame] is the class [State]: a binding and the state it extends.
    No method assigns to a field after [__init__]. *)
Inductive State : Type :=
| EmptyState
| Frame (variable_name : string) (value : Value * Type_) (next_state : State).

Definition copy (self : State) : State :=
  match self with
  | EmptyState => EmptyState
  | Frame name (variable_value, variable_type) next =>
      Frame name (variable_value, variable_type) next
  end.

Definition set_value (self : State) (variable_name : string)
    (variable_value : Value) (variable_type : Type_) : State :=
  Frame variable_name (variable_value, variable_type) self.

Fixpoint get_value (self : State) (variable_name : string)
    : option (Value * Type_) :=
  match self with
  | EmptyState => None
  | Frame name value next_state =>
      if String.eqb name variable_name then Some value
      else get_value next_state variable_name
  end.

(** ** Effects: standard output, exceptions, fuel

    [print] appends a line to standard output. A line is either a literal
    text or the text that an f-string makes of a value; how Python formats
    a value is not modelled. An exception ends the evaluation and keeps
    what was printed before it. [evaluate] need not return (a [While] may
    loop for ever), so the embedding counts its nested calls and loop
    iterations down from a bound and answers [OutOfFuel] at zero. *)

Inductive line : Type :=
| Text (s : string)
| Formatted (v : Value).

Definition stdout : Type := list line.

Inductive outcome (A : Type) : Type :=
| Returned (a : A) (out : stdout)
| Raised (e : Error) (out : stdout)
| OutOfFuel.

Arguments Returned {A} a out.
Arguments Raised {A} e out.
Arguments OutOfFuel {A}.

Definition M (A : Type) : Type := stdout -> outcome A.

Definition ret {A : Type} (a : A) : M A := fun out => Returned a out.

Definition raise {A : Type} (e : Error) : M A := fun out => Raised e out.

Definition out_of_fuel {A : Type} : M A := fun _ => OutOfFuel.

Definition bind {A B : Type} (m : M A) (k : A -> M B) : M B :=
  fun out =>
    match m out with
    | Returned a out' => k a out'
    | Raised e out' => Raised e out'
    | OutOfFuel => OutOfFuel
    end.

Definition print (l : line) : M unit := fun out => Returned tt (out ++ [l])%list.

(** A host operator applied inside [evaluate]. *)
Definition host {A : Type} (r : option A) : M A :=
  match r with
  | Some a => ret a
  | None => raise HostError
  end.

Declare Scope eval_scope.
Delimit Scope eval_scope with eval.
Notation "x <- m ;; k" := (bind m (fun x => k))
  (at level 61, m at next level, right associativity) : eval_scope.
Notation "' p <- m ;; k" := (bind m (fun x => match x with p => k end))
  (at level 61, p pattern, m at next level, right associativity) : eval_scope.
Notation "m ;; k" := (bind m (fun _ => k))
  (at level 61, right associativity) : eval_scope.
Open Scope eval_scope.

(** What [evaluate] returns: value, type and state. *)
Definition result : Type := Value * Type_ * State.

(** ** Main evaluation logic *)

(** [a != b] where [b] is a type marker or [None]: a marker never equals
    [None]. *)
Definition Type_neb_opt (a : Type_) (b : option Type_) : bool :=
  match b with
  | Some b' => Type_neb a b'
  | None => true
  end.

Definition is_not_None {A : Type} (o : option A) : bool :=
  match o with
  | Some _ => true
  | None => false
  end.

(** The [for] loop of [Sequence] and [Program]. *)
Fixpoint evaluate_exprs (eval : Expr -> State -> M result)
    (exprs : list Expr) (acc : result) : M result :=
  match exprs with
  | [] => ret acc
  | expr :: rest =>
      let '(_, _, new_state) := acc in
      acc' <- eval expr new_state ;;
      evaluate_exprs eval rest acc'
  end.

(** The [while condition_value:] loop of [While]: it tests the truth value
    of what the condition last evaluated to, and rebinds [condition_type]
    without looking at it. *)
Fixpoint while_loop (eval : Expr -> State -> M result) (fuel : nat)
    (condition body : Expr) (condition_value : Value) (new_state : State)
    : M State :=
  if truthy condition_value then
    match fuel with
    | O => out_of_fuel
    | S fuel' =>
        '(new_value, new_type, new_state) <- eval body new_state ;;
        '(condition_value, condition_type, new_state) <-
          eval condition new_state ;;
        while_loop eval fuel' condition body condition_value new_state
    end
  else ret new_state.

(** [evaluate], one case per expression kind, in the order of the source.
    The last case of the source, a Syntax error for an expression of no
    known kind, has no counterpart here: [Expr] has no other constructor.
    The same holds for the third arm of the dispatch in the relational
    nodes, which no type marker reaches. [fuel] bounds the depth of the
    nested calls and, in [While], the number of iterations. *)
Fixpoint evaluate (fuel : nat) (expression : Expr) (state : State)
    : M result :=
  match fuel with
  | O => out_of_fuel
  | S fuel' =>
    let eval := evaluate fuel' in
    match expression with
    | Ren => ret (PyNone, Unit, state)

    | IntLiteral l => ret (PyInt l, Integer, state)

    | FloatingPointLiteral l => ret (PyFloat l, FloatingPoint, state)

    | StringLiteral l => ret (PyStr l, String, state)

    | BooleanLiteral l => ret (PyBool l, Boolean, state)

    | Print to_print =>
        '(printable_value, printable_type, new_state) <-
          eval to_print state ;;
        match printable_type with
        | Unit => print (Text "Unit")
        | _ => print (Formatted printable_value)
        end ;;
        ret (printable_value, printable_type, new_state)

    | Sequence exprs | Program exprs =>
        evaluate_exprs eval exprs (PyNone, Unit, state)

    | Variable_ variable_name =>
        match get_value state variable_name with
        | None => raise InterpSyntaxError
        | Some (variable_value, variable_type) =>
            ret (variable_value, variable_type, state)
        end

    | Assign variable_name value =>
        '(value_result, value_type, new_state) <- eval value state ;;
        let variable_from_state := get_value new_state variable_name in
        let variable_type := option_map snd variable_from_state in
        if Type_neb_opt value_type variable_type
           && is_not_None variable_type
        then raise InterpTypeError
        else
          let new_state :=
            set_value new_state variable_name value_result value_type in
          ret (value_result, value_type, new_state)

    | Add l r =>
        '(left_result, left_type, new_state) <- eval l state ;;
        '(right_result, right_type, new_state) <- eval r new_state ;;
        if Type_neb left_type right_type then raise InterpTypeError
        else
          result <-
            match left_type with
            | Integer | String | FloatingPoint =>
                host (py_add left_result right_result)
            | _ => raise InterpTypeError
            end ;;
          ret (result, left_type, new_state)

    | Subtract l r =>
        '(left_result, left_type, new_state) <- eval l state ;;
        '(right_result, right_type, new_state) <- eval r new_state ;;
        if Type_neb left_type right_type then raise InterpTypeError
        else
          result <-
            match left_type with
            | Integer | FloatingPoint =>
                host (py_sub left_result right_result)
            | _ => raise InterpTypeError
            end ;;
          ret (result, left_type, new_state)

    | Multiply l r =>
        '(left_result, left_type, new_state) <- eval l state ;;
        '(right_result, right_type, new_state) <- eval r new_state ;;
        if Type_neb left_type right_type then raise InterpTypeError
        else
          result <-
            match left_type with
            | Integer | FloatingPoint =>
                host (py_mul left_result right_result)
            | _ => raise InterpTypeError
            end ;;
          ret (result, left_type, new_state)

    | Divide l r =>
        '(left_result, left_type, new_state) <- eval l state ;;
        '(right_result, right_type, new_state) <- eval r new_state ;;
        if py_eq right_result (PyInt 0) then raise InterpMathError
        else if Type_neb left_type right_type then raise InterpTypeError
        else
          result <-
            match left_type with
            | FloatingPoint => host (py_truediv left_result right_result)
            | Integer => host (py_floordiv left_result right_result)
            | _ => raise InterpTypeError
            end ;;
          ret (result, left_type, new_state)

    | And l r =>
        '(left_value, left_type, new_state) <- eval l state ;;
        '(right_value, right_type, new_state) <- eval r new_state ;;
        if Type_neb left_type right_type then raise InterpTypeError
        else
          result <-
            match left_type with
            | Boolean => ret (py_and left_value right_value)
            | _ => raise InterpTypeError
            end ;;
          ret (result, left_type, new_state)

    | Or l r =>
        '(left_value, left_type, new_state) <- eval l state ;;
        '(right_value, right_type, new_state) <- eval r new_state ;;
        if Type_neb left_type right_type then raise InterpTypeError
        else
          result <-
            match left_type with
            | Boolean => ret (py_or left_value right_value)
            | _ => raise InterpTypeError
            end ;;
          ret (result, left_type, new_state)

    | Not expr =>
        '(new_value, new_type, new_state) <- eval expr state ;;
        result <-
          match new_type with
          | Boolean => ret (py_not new_value)
          | _ => raise InterpTypeError
          end ;;
        ret (result, new_type, new_state)

    | If condition true_ false_ =>
        '(condition_value, condition_type, new_state) <-
          eval condition state ;;
        match condition_type with
        | Boolean =>
            '(true_value, true_type, new_state) <- eval true_ new_state ;;
            '(false_value, false_type, new_state) <-
              eval false_ new_state ;;
            if py_eq condition_value (PyBool true)
            then ret (true_value, true_type, new_state)
            else ret (false_value, false_type, new_state)
        | _ => raise InterpTypeError
        end

    | Lt l r =>
        '(left_value, left_type, new_state) <- eval l state ;;
        '(right_value, right_type, new_state) <- eval r new_state ;;
        if Type_neb left_type right_type then raise InterpTypeError
        else
          result <-
            match left_type with
            | Integer | Boolean | String | FloatingPoint =>
                host (py_lt left_value right_value)
            | Unit => ret (PyBool false)
            end ;;
          ret (result, Boolean, new_state)

    | Lte l r =>
        '(left_value, left_type, new_state) <- eval l state ;;
        '(right_value, right_type, new_state) <- eval r new_state ;;
        if Type_neb left_type right_type then raise InterpTypeError
        else
          result <-
            match left_type with
            | Integer | Boolean | String | FloatingPoint =>
                host (py_le left_value right_value)
            | Unit => ret (PyBool true)
            end ;;
          ret (result, Boolean, new_state)

    | Gt l r =>
        '(left_value, left_type, new_state) <- eval l state ;;
        '(right_value, right_type, new_state) <- eval r new_state ;;
        if Type_neb left_type right_type then raise InterpTypeError
        else
          result <-
            match left_type with
            | Integer | Boolean | String | FloatingPoint =>
                host (py_gt left_value right_value)
            | Unit => ret (PyBool false)
            end ;;
          ret (result, Boolean, new_state)

    | Gte l r =>
        '(left_value, left_type, new_state) <- eval l state ;;
        '(right_value, right_type, new_state) <- eval r new_state ;;
        if Type_neb left_type right_type then raise InterpTypeError
        else
          result <-
            match left_type with
            | Integer | Boolean | String | FloatingPoint =>
                host (py_ge left_value right_value)
            | Unit => ret (PyBool true)
            end ;;
          ret (result, Boolean, new_state)

    | Eq l r =>
        '(left_value, left_type, new_state) <- eval l state ;;
        '(right_value, right_type, new_state) <- eval r new_state ;;
        if Type_neb left_type right_type then raise InterpTypeError
        else
          result <-
            match left_type with
            | Integer | Boolean | String | FloatingPoint =>
                ret (PyBool (py_eq left_value right_value))
            | Unit => ret (PyBool true)
            end ;;
          ret (result, Boolean, new_state)

    | Ne l r =>
        '(left_value, left_type, new_state) <- eval l state ;;
        '(right_value, right_type, new_state) <- eval r new_state ;;
        if Type_neb left_type right_type then raise InterpTypeError
        else
          result <-
            match left_type with
            | Integer | Boolean | String | FloatingPoint =>
                ret (PyBool (py_ne left_value right_value))
            | Unit => ret (PyBool false)
            end ;;
          ret (result, Boolean, new_state)

    | While condition body =>
        '(condition_value, condition_type, new_state) <-
          eval condition state ;;
        new_state <-
          match condition_type with
          | Boolean =>
              while_loop eval fuel' condition body condition_value new_state
          | _ => raise InterpTypeError
          end ;;
        ret (PyBool false, Boolean, new_state)
    end
  end.

(** [run_stimpl] with [debug=False]: the program against the empty state. *)
Definition run_stimpl (fuel : nat) (program : Expr) : outcome result :=
  evaluate fuel program EmptyState [].

(** The outcome of [evaluate] once it has fuel enough: a return or an
    exception, never [OutOfFuel]. *)
Definition evaluates (expression : Expr) (state : State) (out : stdout)
    (r : outcome result) : Prop :=
  r <> OutOfFuel /\ exists fuel, evaluate fuel expression state out = r.

(** [r'] is what [r] becomes with more fuel. *)
Definition extends {A : Type} (r r' : outcome A) : Prop :=
  r <> OutOfFuel -> r' = r.

(** ** Vocabulary of the properties *)

(** The bindings of a chain, the most recent first. *)
Fixpoint bindings (s : State) : list (string * (Value * Type_)) :=
  match s with
  | EmptyState => []
  | Frame name value next_state => (name, value) :: bindings next_state
  end.

(** The state that remains below the [n] most recent frames. *)
Fixpoint older (n : nat) (s : State) : State :=
  match n, s with
  | S n', Frame _ _ next_state => older n' next_state
  | _, _ => s
  end.

(** [set_value] called once per element of [values], in order, on the
    state that the call before returned. *)
Definition set_values (s : State) (name : string)
    (values : list (Value * Type_)) : State :=
  fold_left (fun st value => set_value st name (fst value) (snd value))
            values s.

(** The twelve binary nodes. *)
Inductive binary_operator : Type :=
| OpAdd | OpSubtract | OpMultiply | OpDivide
| OpAnd | OpOr
| OpLt | OpLte | OpGt | OpGte | OpEq | OpNe.

Definition binary (op : binary_operator) (l r : Expr) : Expr :=
  match op with
  | OpAdd => Add l r
  | OpSubtract => Subtract l r
  | OpMultiply => Multiply l r
  | OpDivide => Divide l r
  | OpAnd => And l r
  | OpOr => Or l r
  | OpLt => Lt l r
  | OpLte => Lte l r
  | OpGt => Gt l r
  | OpGte => Gte l r
  | OpEq => Eq l r
  | OpNe => Ne l r
  end.

(** A condition whose type depends on the state: Boolean while [x < 1],
    Integer afterwards (1 while [x < 3], then 0); and a loop over it that
    counts [x] up. *)
Definition x_below (k : Z) : Expr := Lt (Variable_ "x") (IntLiteral k).

Definition drifting_condition : Expr :=
  If (x_below 1) (BooleanLiteral true)
     (If (x_below 3) (IntLiteral 1) (IntLiteral 0)).

Definition drifting_loop : Expr :=
  While drifting_condition
        (Assign "x" (Add (Variable_ "x") (IntLiteral 1))).

Definition drifting_program : Expr :=
  Program [Assign "x" (IntLiteral 0); drifting_loop].

(** The state after [x] was assigned 0, 1, ..., [k] in turn. *)
Definition counted (k : nat) : State :=
  set_values EmptyState "x"
    (map (fun i => (PyInt (Z.of_nat i), Integer)) (seq 0 (S k))).

(** The type marker of a value's Python class, and the states and
    outcomes in which every value carries it. *)
Definition class_of (v : Value) : Type_ :=
  match v with
  | PyNone => Unit
  | PyInt _ => Integer
  | PyFloat _ => FloatingPoint
  | PyStr _ => String
  | PyBool _ => Boolean
  end.

Fixpoint coherent (s : State) : Prop :=
  match s with
  | EmptyState => True
  | Frame _ (v, t) next_state => class_of v = t /\ coherent next_state
  end.

Definition coherent_result (r : result) : Prop :=
  let '(v, t, s) := r in class_of v = t /\ coherent s.

(** An outcome that is no [HostError] and, when it is a return, returns
    something [good]. *)
Definition safe {A : Type} (good : A -> Prop) (r : outcome A) : Prop :=
  match r with
  | Returned a _ => good a
  | Raised e _ => e <> HostError
  | OutOfFuel => True
  end.

(** ** Vocabulary of the further properties *)

(** What an outcome guarantees: [P] of what is returned and of the output
    then, [Q] of the output when an exception ends the evaluation. *)
Definition ensures {A : Type} (P : A -> stdout -> Prop) (Q : stdout -> Prop)
    (r : outcome A) : Prop :=
  match r with
  | Returned a o => P a o
  | Raised _ o => Q o
  | OutOfFuel => True
  end.

(** The expressions whose [Assign] nodes all assign an [assignable] name
    and which hold a [Print] node only if [may_print]. *)
Definition uses_only (assignable : string -> bool) (may_print : bool)
    : Expr -> bool :=
  fix go (e : Expr) : bool :=
    match e with
    | Ren | IntLiteral _ | FloatingPointLiteral _ | StringLiteral _
    | BooleanLiteral _ | Variable_ _ => true
    | Print to_print => may_print && go to_print
    | Sequence exprs | Program exprs => forallb go exprs
    | Assign variable_name value => assignable variable_name && go value
    | Add l r | Subtract l r | Multiply l r | Divide l r
    | And l r | Or l r
    | Lt l r | Lte l r | Gt l r | Gte l r | Eq l r | Ne l r => go l && go r
    | Not expr => go expr
    | If condition true_ false_ => go condition && go true_ && go false_
    | While condition body => go condition && go body
    end.

(** No [Assign] node; no [Print] node; no [Assign] node for [name]. *)
Definition assign_free : Expr -> bool := uses_only (fun _ => false) true.

Definition print_free : Expr -> bool := uses_only (fun _ => true) false.

Definition leaves_alone (name : string) : Expr -> bool :=
  uses_only (fun n => negb (String.eqb n name)) true.

(** All bindings of one name in the chain have one type. *)
Definition one_type_per_name (s : State) : Prop :=
  forall name v1 t1 v2 t2,
    In (name, (v1, t1)) (bindings s) ->
    In (name, (v2, t2)) (bindings s) ->
    t1 = t2.


(** The types on which the dispatch of a binary node computes a result. *)
Definition accepts (op : binary_operator) (t : Type_) : bool :=
  match op, t with
  | OpAdd, (Integer | String | FloatingPoint) => true
  | (OpSubtract | OpMultiply | OpDivide), (Integer | FloatingPoint) => true
  | (OpAnd | OpOr), Boolean => true
  | (OpLt | OpLte | OpGt | OpGte | OpEq | OpNe), _ => true
  | _, _ => false
  end.

(** An outcome whose state satisfies [I] and whose output satisfies
    [J]. *)
Definition keeps (I : State -> Prop) (J : stdout -> Prop)
    : outcome result -> Prop :=
  ensures (fun a o => I (snd a) /\ J o) J.

(** What has been printed when an evaluation ends. *)
Definition output_of {A : Type} (r : outcome A) : stdout :=
  match r with
  | Returned _ o | Raised _ o => o
  | OutOfFuel => []
  end.

(** The type a binary node returns on operands of type [t]. *)
Definition result_type (op : binary_operator) (t : Type_) : Type_ :=
  match op with
  | OpLt | OpLte | OpGt | OpGte | OpEq | OpNe => Boolean
  | _ => t
  end.

(** ** Sample runs *)

Example run_floor_division :
  run_stimpl 2 (Divide (IntLiteral (-7)) (IntLiteral 2))
  = Returned (PyInt (-4), Integer, EmptyState) [].
Proof. reflexivity. Qed.

Example run_true_division :
  run_stimpl 2 (Divide (FloatingPointLiteral 7) (FloatingPointLiteral 2))
  = Returned (PyFloat 3.5, FloatingPoint, EmptyState) [].
Proof. reflexivity. Qed.

Example run_if_prints_both_branches :
  run_stimpl 4
    (If (BooleanLiteral true)
        (Sequence [Print (StringLiteral "A"); IntLiteral 1])
        (Sequence [Print (StringLiteral "B"); IntLiteral 2]))
  = Returned (PyInt 1, Integer, EmptyState)
             [Formatted (PyStr "A"); Formatted (PyStr "B")].
Proof. reflexivity. Qed.

Example run_or_prints_right_operand :
  run_stimpl 3 (Or (BooleanLiteral true) (Print (BooleanLiteral false)))
  = Returned (PyBool true, Boolean, EmptyState) [Formatted (PyBool false)].
Proof. reflexivity. Qed.

Example run_print_unit :
  run_stimpl 3 (Print (Program []))
  = Returned (PyNone, Unit, EmptyState) [Text "Unit"].
Proof. reflexivity. Qed.

Example run_reassign_other_type :
  run_stimpl 3 (Program [Assign "x" (IntLiteral 1);
                         Assign "x" (StringLiteral "one")])
  = Raised InterpTypeError [].
Proof. reflexivity. Qed.

Example run_while_counts :
  run_stimpl 6
    (Program [Assign "i" (IntLiteral 0);
              While (Lt (Variable_ "i") (IntLiteral 2))
                    (Assign "i" (Add (Variable_ "i") (IntLiteral 1)));
              Variable_ "i"])
  = Returned (PyInt 2, Integer,
              set_values EmptyState "i"
                [(PyInt 0, Integer); (PyInt 1, Integer); (PyInt 2, Integer)])
             [].
Proof. reflexivity. Qed.

Example run_out_of_fuel :
  run_stimpl 50 (While (BooleanLiteral true) Ren) = OutOfFuel.
Proof. reflexivity. Qed.

(** ** More fuel changes no outcome *)

Lemma extends_refl {A : Type} (r : outcome A) : extends r r.
Proof. intros _. reflexivity. Qed.

Lemma extends_bind {A B : Type} (m m' : M A) (k k' : A -> M B) out :
  extends (m out) (m' out) ->
  (forall a o, extends (k a o) (k' a o)) ->
  extends (bind m k out) (bind m' k' out).
Proof.
  unfold bind. intros Hm Hk.
  destruct (m out) as [a o | e o | ] eqn:E.
  - rewrite Hm by discriminate. apply Hk.
  - rewrite Hm by discriminate. apply extends_refl.
  - intros H. contradiction.
Qed.

Section Monotone.
Variables eval eval' : Expr -> State -> M result.
Hypothesis eval_extends :
  forall e s out, extends (eval e s out) (eval' e s out).

Lemma evaluate_exprs_extends exprs : forall acc out,
  extends (evaluate_exprs eval exprs acc out)
          (evaluate_exprs eval' exprs acc out).
Proof.
  induction exprs as [| expr rest IH]; intros [[v t] s] out; simpl.
  - apply extends_refl.
  - apply extends_bind; [apply eval_extends | intros; apply IH].
Qed.

Lemma while_loop_extends n : forall n' condition body cv s out,
  (n <= n')%nat ->
  extends (while_loop eval n condition body cv s out)
          (while_loop eval' n' condition body cv s out).
Proof.
  induction n as [| n IH]; intros n' condition body cv s out Hle.
  - destruct n'; simpl; destruct (truthy cv);
      try apply extends_refl; intros H; contradiction.
  - destruct n' as [| n']; [lia |]. simpl.
    destruct (truthy cv); [| apply extends_refl].
    apply extends_bind; [apply eval_extends |].
    intros [[? ?] s1] o1.
    apply extends_bind; [apply eval_extends |].
    intros [[cv' ?] s2] o2. apply IH. lia.
Qed.
End Monotone.

Ltac extends_step IH :=
  cbv beta;
  match goal with
  | |- extends ?a ?a => apply extends_refl
  | |- extends (bind _ _ _) (bind _ _ _) =>
      apply extends_bind; [| intros ? ?]
  | |- extends (evaluate _ _ _ _) (evaluate _ _ _ _) => apply IH; lia
  | |- extends (evaluate_exprs _ _ _ _) (evaluate_exprs _ _ _ _) =>
      apply evaluate_exprs_extends; intros; apply IH; lia
  | |- extends (while_loop _ _ _ _ _ _ _) (while_loop _ _ _ _ _ _ _) =>
      apply while_loop_extends; [intros; apply IH; lia | lia]
  | |- extends (match ?x with _ => _ end _) _ => destruct x
  | |- extends (if ?b then _ else _) _ => destruct b
  end.

Lemma evaluate_extends n : forall n' expression state out,
  (n <= n')%nat ->
  extends (evaluate n expression state out)
          (evaluate n' expression state out).
Proof.
  induction n as [| n IH]; intros n' expression state out Hle.
  - intros H. contradiction.
  - destruct n' as [| n']; [lia |].
    destruct expression; simpl; repeat extends_step IH.
Qed.

Lemma evaluate_more n n' expression state out r :
  evaluate n expression state out = r ->
  r <> OutOfFuel ->
  (n <= n')%nat ->
  evaluate n' expression state out = r.
Proof.
  intros H Hr Hle. subst r.
  apply (evaluate_extends n n' expression state out Hle Hr).
Qed.

Lemma evaluates_deterministic expression state out r r' :
  evaluates expression state out r ->
  evaluates expression state out r' ->
  r = r'.
Proof.
  intros [Hr [n Hn]] [Hr' [n' Hn']].
  rewrite <- (evaluate_more n (Nat.max n n') _ _ _ _ Hn Hr (Nat.le_max_l _ _)).
  apply (evaluate_more n' (Nat.max n n') _ _ _ _ Hn' Hr' (Nat.le_max_r _ _)).
Qed.

(** ** Composing evaluations *)

Lemma evaluates_intro fuel expression state out r :
  evaluate fuel expression state out = r ->
  r <> OutOfFuel ->
  evaluates expression state out r.
Proof. intros H Hr. split; [exact Hr | exists fuel; exact H]. Qed.

Lemma common_fuel2 e1 s1 o1 r1 e2 s2 o2 r2 :
  evaluates e1 s1 o1 r1 ->
  evaluates e2 s2 o2 r2 ->
  exists n, evaluate n e1 s1 o1 = r1 /\ evaluate n e2 s2 o2 = r2.
Proof.
  intros [Hr1 [n1 H1]] [Hr2 [n2 H2]]. exists (Nat.max n1 n2). split.
  - apply (evaluate_more n1); auto using Nat.le_max_l.
  - apply (evaluate_more n2); auto using Nat.le_max_r.
Qed.

Lemma common_fuel3 e1 s1 o1 r1 e2 s2 o2 r2 e3 s3 o3 r3 :
  evaluates e1 s1 o1 r1 ->
  evaluates e2 s2 o2 r2 ->
  evaluates e3 s3 o3 r3 ->
  exists n, evaluate n e1 s1 o1 = r1 /\ evaluate n e2 s2 o2 = r2
            /\ evaluate n e3 s3 o3 = r3.
Proof.
  intros H1 [Hr2 [n2 H2]] [Hr3 [n3 H3]].
  destruct H1 as [Hr1 [n1 H1]].
  exists (Nat.max n1 (Nat.max n2 n3)). repeat split.
  - apply (evaluate_more n1); auto. lia.
  - apply (evaluate_more n2); auto. lia.
  - apply (evaluate_more n3); auto. lia.
Qed.

(** With fuel [n] for the sub-expressions, [S n] is enough for the node. *)
Ltac run_node n :=
  split; [discriminate | exists (S n); simpl; unfold bind].

(** ** Host equality with zero *)

Lemma py_eq_int_zero (z : Z) : py_eq (PyInt z) (PyInt 0) = (z =? 0).
Proof.
  unfold py_eq, py_compare; simpl.
  destruct (Z.compare_spec z 0) as [H | H | H]; simpl; symmetry.
  - apply Z.eqb_eq; exact H.
  - apply Z.eqb_neq; lia.
  - apply Z.eqb_neq; lia.
Qed.

Lemma py_eq_bool_zero (b : bool) : py_eq (PyBool b) (PyInt 0) = negb b.
Proof. destruct b; reflexivity. Qed.

(** [condition_value == True] on a Boolean is the Boolean itself. *)
Lemma py_eq_bool_True (b : bool) : py_eq (PyBool b) (PyBool true) = b.
Proof. destruct b; reflexivity. Qed.

(** The exact comparison of a float with the integer 0 is the IEEE
    comparison with [0.0]: both zeros pass it, and nothing else does. *)
Lemma py_eq_float_zero (f : float) :
  py_eq (PyFloat f) (PyInt 0) = PrimFloat.eqb f 0%float.
Proof.
  unfold py_eq, py_compare; simpl. unfold float_compare_Z.
  rewrite FloatAxioms.eqb_spec.
  change (Prim2SF 0%float) with (S754_zero false).
  destruct (Prim2SF f) as [sg | sg | | sg m e]; simpl; try reflexivity.
  - destruct sg; reflexivity.
  - unfold SFeqb; simpl.
    destruct (0 <=? e) eqn:He; [| destruct sg; reflexivity].
    apply Z.leb_le in He.
    assert (Hp : 0 < 2 ^ e) by (apply Z.pow_pos_nonneg; lia).
    destruct sg; simpl; destruct (2 ^ e); try lia; reflexivity.
Qed.

(** ** Variables *)



(** ** The binding chain *)

Lemma bindings_set_values name values : forall s,
  bindings (set_values s name values)
  = (rev (map (pair name) values) ++ bindings s)%list.
Proof.
  unfold set_values.
  induction values as [| [v t] values IH]; intros s; simpl.
  - reflexivity.
  - rewrite IH. simpl. rewrite <- app_assoc. reflexivity.
Qed.

Lemma older_set_values name values : forall s,
  older (length values) (set_values s name values) = s.
Proof.
  unfold set_values.
  induction values as [| [v t] values IH] using rev_ind; intros s.
  - reflexivity.
  - rewrite fold_left_app, length_app, Nat.add_comm. simpl. apply IH.
Qed.

Lemma get_value_set_values name values : forall s,
  get_value (set_values s name values) name
  = last (map Some values) (get_value s name).
Proof.
  unfold set_values.
  induction values as [| [v t] values IH] using rev_ind; intros s.
  - reflexivity.
  - rewrite fold_left_app, map_app. cbn [map]. rewrite last_last. simpl.
    rewrite String.eqb_refl. reflexivity.
Qed.

(** C9. [set_value] leaves the state it extends as it is: after N
    assignments to one name the chain holds the N bindings, the most
    recent first, in front of the bindings it had; the state below the N
    new frames is the state the assignments started from; and looking the
    name up gives the value and type of the last assignment. *)
Theorem set_value_keeps_history s name values :
  bindings (set_values s name values)
  = (rev (map (pair name) values) ++ bindings s)%list
  /\ older (length values) (set_values s name values) = s
  /\ (forall value, values <> [] ->
        get_value (set_values s name values) name
        = Some (last values value)).
Proof.
  split; [apply bindings_set_values |].
  split; [apply older_set_values |].
  intros value Hne. rewrite get_value_set_values.
  destruct values as [| v0 values] using rev_ind; [contradiction |].
  rewrite map_app. cbn [map]. rewrite !last_last. reflexivity.
Qed.

Lemma set_value_keeps_history_witness :
  get_value
    (set_values (Frame "y" (PyBool true, Boolean) EmptyState) "x"
                [(PyInt 1, Integer); (PyInt 2, Integer)]) "x"
  = Some (PyInt 2, Integer).
Proof.
  apply (proj2 (proj2 (set_value_keeps_history
                         (Frame "y" (PyBool true, Boolean) EmptyState) "x"
                         [(PyInt 1, Integer); (PyInt 2, Integer)]))
               (PyNone, Unit)).
  discriminate.
Defined.

(** ** Division *)

(** C1. In a [Divide], after both operands are evaluated (the right one
    against the state the left one returned), a right value that equals
    zero raises a Math error. The check comes before the comparison of the
    two types and before the dispatch on the type, so the types [lt] and
    [rt] are arbitrary here and may differ. [py_eq_int_zero] and
    [py_eq_float_zero] say which integers and floats equal zero. *)
Theorem divide_by_zero_is_math_error l r s out lv lt s1 o1 rv rt s2 o2 :
  evaluates l s out (Returned (lv, lt, s1) o1) ->
  evaluates r s1 o1 (Returned (rv, rt, s2) o2) ->
  py_eq rv (PyInt 0) = true ->
  evaluates (Divide l r) s out (Raised InterpMathError o2).
Proof.
  intros Hl Hr Hz.
  destruct (common_fuel2 _ _ _ _ _ _ _ _ Hl Hr) as [n [El Er]].
  run_node n. rewrite El, Er, Hz. reflexivity.
Qed.

Lemma divide_by_zero_is_math_error_witness :
  evaluates (Divide (StringLiteral "a") (FloatingPointLiteral (-0)))
            EmptyState [] (Raised InterpMathError []).
Proof.
  apply (divide_by_zero_is_math_error
           (StringLiteral "a") (FloatingPointLiteral (-0)) EmptyState []
           (PyStr "a") String EmptyState []
           (PyFloat (-0)) FloatingPoint EmptyState []).
  - apply (evaluates_intro 1); [reflexivity | discriminate].
  - apply (evaluates_intro 1); [reflexivity | discriminate].
  - vm_compute. reflexivity.
Defined.

(** C10. A [Divide] whose right operand evaluates to the Boolean [False]
    raises a Math error, not a Type error: [False == 0] holds in the
    host, and the zero check runs before any check of the types. *)
Theorem divide_by_false_is_math_error l r s out lv lt s1 o1 s2 o2 :
  evaluates l s out (Returned (lv, lt, s1) o1) ->
  evaluates r s1 o1 (Returned (PyBool false, Boolean, s2) o2) ->
  evaluates (Divide l r) s out (Raised InterpMathError o2).
Proof.
  intros Hl Hr.
  destruct (common_fuel2 _ _ _ _ _ _ _ _ Hl Hr) as [n [El Er]].
  run_node n. rewrite El, Er, py_eq_bool_zero. reflexivity.
Qed.

Lemma divide_by_false_is_math_error_witness :
  evaluates (Divide (BooleanLiteral true) (BooleanLiteral false))
            EmptyState [] (Raised InterpMathError []).
Proof.
  apply (divide_by_false_is_math_error
           (BooleanLiteral true) (BooleanLiteral false) EmptyState []
           (PyBool true) Boolean EmptyState [] EmptyState []).
  - apply (evaluates_intro 1); [reflexivity | discriminate].
  - apply (evaluates_intro 1); [reflexivity | discriminate].
Defined.

(** C8. A [Divide] of two Integer operands with a right value other than
    zero returns the floor of the exact quotient, for operands of either
    sign; a [Divide] of two FloatingPoint operands with a right value
    other than zero returns their binary64 quotient. *)
Theorem divide_floor_and_true_division l r s out s1 o1 s2 o2 :
  (forall a b : Z,
      evaluates l s out (Returned (PyInt a, Integer, s1) o1) ->
      evaluates r s1 o1 (Returned (PyInt b, Integer, s2) o2) ->
      b <> 0 ->
      evaluates (Divide l r) s out
        (Returned (PyInt (Qfloor (inject_Z a / inject_Z b)), Integer, s2) o2))
  /\ (forall x y : float,
      evaluates l s out (Returned (PyFloat x, FloatingPoint, s1) o1) ->
      evaluates r s1 o1 (Returned (PyFloat y, FloatingPoint, s2) o2) ->
      PrimFloat.eqb y 0%float = false ->
      evaluates (Divide l r) s out
        (Returned (PyFloat (x / y)%float, FloatingPoint, s2) o2)).
Proof.
  split.
  - intros a b Hl Hr Hb.
    destruct (common_fuel2 _ _ _ _ _ _ _ _ Hl Hr) as [n [El Er]].
    apply Z.eqb_neq in Hb. rewrite <- Zdiv_Qdiv.
    run_node n. rewrite El, Er, py_eq_int_zero, Hb. simpl.
    unfold py_floordiv; simpl. rewrite Hb. reflexivity.
  - intros x y Hl Hr Hy.
    destruct (common_fuel2 _ _ _ _ _ _ _ _ Hl Hr) as [n [El Er]].
    run_node n. rewrite El, Er, py_eq_float_zero, Hy. simpl.
    rewrite Hy. reflexivity.
Qed.

Lemma divide_floor_and_true_division_witness :
  evaluates (Divide (IntLiteral 7) (IntLiteral 2)) EmptyState []
            (Returned (PyInt 3, Integer, EmptyState) [])
  /\ evaluates (Divide (IntLiteral (-7)) (IntLiteral 2)) EmptyState []
               (Returned (PyInt (-4), Integer, EmptyState) [])
  /\ evaluates (Divide (FloatingPointLiteral 7) (FloatingPointLiteral 2))
               EmptyState []
               (Returned (PyFloat 3.5, FloatingPoint, EmptyState) []).
Proof.
  split; [| split].
  - apply (proj1 (divide_floor_and_true_division
                    (IntLiteral 7) (IntLiteral 2) EmptyState []
                    EmptyState [] EmptyState []) 7 2).
    + apply (evaluates_intro 1); [reflexivity | discriminate].
    + apply (evaluates_intro 1); [reflexivity | discriminate].
    + discriminate.
  - apply (proj1 (divide_floor_and_true_division
                    (IntLiteral (-7)) (IntLiteral 2) EmptyState []
                    EmptyState [] EmptyState []) (-7) 2).
    + apply (evaluates_intro 1); [reflexivity | discriminate].
    + apply (evaluates_intro 1); [reflexivity | discriminate].
    + discriminate.
  - apply (proj2 (divide_floor_and_true_division
                    (FloatingPointLiteral 7) (FloatingPointLiteral 2)
                    EmptyState [] EmptyState [] EmptyState []) 7%float 2%float).
    + apply (evaluates_intro 1); [reflexivity | discriminate].
    + apply (evaluates_intro 1); [reflexivity | discriminate].
    + reflexivity.
Defined.

(** ** Relational operators on Unit *)

(** C6. When both operands evaluate to the Unit type, [Eq], [Lte] and
    [Gte] return true and [Lt], [Gt] and [Ne] return false; the type of
    the result is Boolean each time, and the state and the output are
    those the right operand left. *)
Theorem relational_on_unit l r s out lv s1 o1 rv s2 o2 :
  evaluates l s out (Returned (lv, Unit, s1) o1) ->
  evaluates r s1 o1 (Returned (rv, Unit, s2) o2) ->
  evaluates (Eq l r) s out (Returned (PyBool true, Boolean, s2) o2)
  /\ evaluates (Lte l r) s out (Returned (PyBool true, Boolean, s2) o2)
  /\ evaluates (Gte l r) s out (Returned (PyBool true, Boolean, s2) o2)
  /\ evaluates (Lt l r) s out (Returned (PyBool false, Boolean, s2) o2)
  /\ evaluates (Gt l r) s out (Returned (PyBool false, Boolean, s2) o2)
  /\ evaluates (Ne l r) s out (Returned (PyBool false, Boolean, s2) o2).
Proof.
  intros Hl Hr.
  destruct (common_fuel2 _ _ _ _ _ _ _ _ Hl Hr) as [n [El Er]].
  repeat split; try discriminate;
    exists (S n); simpl; unfold bind; rewrite El, Er; reflexivity.
Qed.

Lemma relational_on_unit_witness :
  evaluates (Lte Ren Ren) EmptyState []
            (Returned (PyBool true, Boolean, EmptyState) [])
  /\ evaluates (Ne Ren Ren) EmptyState []
               (Returned (PyBool false, Boolean, EmptyState) []).
Proof.
  assert (H : evaluates Ren EmptyState []
                        (Returned (PyNone, Unit, EmptyState) []))
    by (apply (evaluates_intro 1); [reflexivity | discriminate]).
  pose proof (relational_on_unit Ren Ren EmptyState [] PyNone EmptyState []
                                 PyNone EmptyState [] H H) as R.
  split; [apply R | apply R].
Defined.

(** ** Assignment *)

Lemma Type_neb_true a b : Type_neb a b = true <-> a <> b.
Proof.
  destruct a, b; simpl; split; intros H;
    first [reflexivity | discriminate | contradiction H; reflexivity].
Qed.




(** ** If *)

(** Whatever fuel is given, an evaluation either runs out of it or ends
    as it ends with enough of it. *)
Lemma evaluates_at_fuel expression state out r n :
  evaluates expression state out r ->
  evaluate n expression state out = OutOfFuel
  \/ evaluate n expression state out = r.
Proof.
  intros H. destruct (evaluate n expression state out) eqn:E;
    [right | right | left; reflexivity];
    apply (evaluates_deterministic expression state out); auto;
    apply (evaluates_intro n); auto; discriminate.
Qed.



(** ** Binary operators *)

Lemma bind_returned {A B : Type} (m : M A) (k : A -> M B) out a o :
  m out = Returned a o -> bind m k out = k a o.
Proof. intros H. unfold bind. rewrite H. reflexivity. Qed.

(** With both operands returned, a binary node ends with the state and
    the output of the right operand: it returns them, or raises. *)
Lemma binary_after_operands op n l r s out lv lt s1 o1 rv rt s2 o2 :
  evaluate n l s out = Returned (lv, lt, s1) o1 ->
  evaluate n r s1 o1 = Returned (rv, rt, s2) o2 ->
  (exists e, evaluate (S n) (binary op l r) s out = Raised e o2)
  \/ (exists v t,
        evaluate (S n) (binary op l r) s out = Returned (v, t, s2) o2).
Proof.
  intros El Er.
  destruct op; simpl;
    rewrite (bind_returned _ _ _ _ _ El); cbv beta iota;
    rewrite (bind_returned _ _ _ _ _ Er); cbv beta iota;
    repeat match goal with
      | |- context [if ?b then _ else _] => destruct b
      end;
    try (left; eexists; reflexivity);
    destruct lt; unfold bind, host;
    repeat match goal with
      | |- context [match ?x with Some _ => _ | None => _ end] => destruct x
      end;
    simpl; eauto.
Qed.

(** C4. Each of the twelve binary nodes evaluates its left operand
    against the incoming state and then its right operand against the
    state the left one returned, and decides nothing before both are
    done: an exception of the left operand, or of the right operand after
    the left one returned, is the outcome of the node (also for [And] and
    [Or] whose left operand has settled the result); when both return,
    the node ends with the state and output of the right operand; and a
    node that returns has evaluated both operands in that order and
    returns the state and output of the right one. *)
Theorem binary_evaluates_left_then_right op l r s out :
  (forall e o1,
      evaluates l s out (Raised e o1) ->
      evaluates (binary op l r) s out (Raised e o1))
  /\ (forall lv lt s1 o1 e o2,
      evaluates l s out (Returned (lv, lt, s1) o1) ->
      evaluates r s1 o1 (Raised e o2) ->
      evaluates (binary op l r) s out (Raised e o2))
  /\ (forall lv lt s1 o1 rv rt s2 o2,
      evaluates l s out (Returned (lv, lt, s1) o1) ->
      evaluates r s1 o1 (Returned (rv, rt, s2) o2) ->
      (exists e, evaluates (binary op l r) s out (Raised e o2))
      \/ (exists v t,
            evaluates (binary op l r) s out (Returned (v, t, s2) o2)))
  /\ (forall v t s' out',
      evaluates (binary op l r) s out (Returned (v, t, s') out') ->
      exists lv lt s1 o1 rv rt,
        evaluates l s out (Returned (lv, lt, s1) o1)
        /\ evaluates r s1 o1 (Returned (rv, rt, s') out')).
Proof.
  split; [| split; [| split]].
  - intros e o1 [_ [n Hn]].
    split; [discriminate | exists (S n)].
    destruct op; simpl; unfold bind; rewrite Hn; reflexivity.
  - intros lv lt s1 o1 e o2 Hl Hr.
    destruct (common_fuel2 _ _ _ _ _ _ _ _ Hl Hr) as [n [El Er]].
    split; [discriminate | exists (S n)].
    destruct op; simpl; unfold bind; rewrite El, Er; reflexivity.
  - intros lv lt s1 o1 rv rt s2 o2 Hl Hr.
    destruct (common_fuel2 _ _ _ _ _ _ _ _ Hl Hr) as [n [El Er]].
    destruct (binary_after_operands op n _ _ _ _ _ _ _ _ _ _ _ _ El Er)
      as [[e H] | [v [t H]]].
    + left. exists e. apply (evaluates_intro (S n)); [exact H | discriminate].
    + right. exists v, t.
      apply (evaluates_intro (S n)); [exact H | discriminate].
  - intros v t s' out' [_ [n Hn]].
    destruct n as [| n]; [discriminate |].
    destruct (evaluate n l s out) as [[[lv lt] s1] o1 | e o1 |] eqn:El;
      [| destruct op; simpl in Hn; unfold bind in Hn; rewrite El in Hn;
         discriminate ..].
    destruct (evaluate n r s1 o1) as [[[rv rt] s2] o2 | e o2 |] eqn:Er;
      [| destruct op; simpl in Hn; unfold bind in Hn; rewrite El, Er in Hn;
         discriminate ..].
    destruct (binary_after_operands op n _ _ _ _ _ _ _ _ _ _ _ _ El Er)
      as [[e H] | [v' [t' H]]]; rewrite H in Hn; [discriminate |].
    injection Hn as _ _ Hs Ho. subst s' out'.
    exists lv, lt, s1, o1, rv, rt.
    split; apply (evaluates_intro n); auto; discriminate.
Qed.

Lemma binary_evaluates_left_then_right_witness :
  evaluates (And (BooleanLiteral false) (Variable_ "missing")) EmptyState []
            (Raised InterpSyntaxError [])
  /\ ((exists e,
         evaluates (Or (BooleanLiteral true)
                       (Eq (Assign "x" (IntLiteral 1)) (IntLiteral 1)))
                   EmptyState [] (Raised e []))
      \/ (exists v t,
            evaluates (Or (BooleanLiteral true)
                          (Eq (Assign "x" (IntLiteral 1)) (IntLiteral 1)))
                      EmptyState []
                      (Returned (v, t, Frame "x" (PyInt 1, Integer) EmptyState)
                                []))).
Proof.
  split.
  - destruct (binary_evaluates_left_then_right
                OpAnd (BooleanLiteral false) (Variable_ "missing")
                EmptyState []) as [_ [H _]].
    apply (H (PyBool false) Boolean EmptyState []).
    + apply (evaluates_intro 1); [reflexivity | discriminate].
    + apply (evaluates_intro 1); [reflexivity | discriminate].
  - destruct (binary_evaluates_left_then_right
                OpOr (BooleanLiteral true)
                (Eq (Assign "x" (IntLiteral 1)) (IntLiteral 1))
                EmptyState []) as [_ [_ [H _]]].
    apply (H (PyBool true) Boolean EmptyState [] (PyBool true) Boolean).
    + apply (evaluates_intro 1); [reflexivity | discriminate].
    + apply (evaluates_intro 3); [reflexivity | discriminate].
Defined.

(** ** While *)

(** C2, on the code: the condition of a [While] is checked for its type
    once, before the loop. In [drifting_program] the condition evaluates
    to a Boolean the first time and to an Integer from the second time
    on; the loop goes on while that Integer is 1 and ends when it is 0,
    and the program returns. No Type error is raised. *)
Theorem while_rechecks_no_type :
  evaluates drifting_condition (counted 0) []
            (Returned (PyBool true, Boolean, counted 0) [])
  /\ evaluates drifting_condition (counted 1) []
               (Returned (PyInt 1, Integer, counted 1) [])
  /\ evaluates drifting_condition (counted 3) []
               (Returned (PyInt 0, Integer, counted 3) [])
  /\ evaluates drifting_program EmptyState []
               (Returned (PyBool false, Boolean, counted 3) [])
  /\ (forall out,
        ~ evaluates drifting_program EmptyState []
                    (Raised InterpTypeError out)).
Proof.
  assert (H : evaluates drifting_program EmptyState []
                        (Returned (PyBool false, Boolean, counted 3) []))
    by (apply (evaluates_intro 8); [vm_compute; reflexivity | discriminate]).
  repeat split; try discriminate; try exact (proj2 H).
  - exists 4%nat. vm_compute. reflexivity.
  - exists 4%nat. vm_compute. reflexivity.
  - exists 4%nat. vm_compute. reflexivity.
  - intros out Hraise.
    pose proof (evaluates_deterministic _ _ _ _ _ H Hraise) as E.
    discriminate E.
Qed.

(** ** Values keep their type tags

    From a state whose bindings carry the tag of their value's class,
    [evaluate] returns such a value and state again and never applies a
    host operator outside the operands modelled: no [HostError]
    arises. In particular [run_stimpl], which starts from [EmptyState],
    raises none. *)

Lemma safe_bind {A B : Type} (ga : A -> Prop) (gb : B -> Prop)
    (m : M A) (k : A -> M B) out :
  safe ga (m out) ->
  (forall a o, ga a -> safe gb (k a o)) ->
  safe gb (bind m k out).
Proof.
  unfold bind. intros Hm Hk.
  destruct (m out) as [a o | e o |]; simpl in *; auto.
Qed.

Lemma get_value_coherent s name v t :
  coherent s -> get_value s name = Some (v, t) -> class_of v = t.
Proof.
  induction s as [| n [v' t'] next IH]; simpl; [discriminate |].
  intros [Hc Hn]. destruct (String.eqb n name); [| auto].
  intros H. injection H as <- <-. exact Hc.
Qed.

Lemma Type_neb_false a b : Type_neb a b = false -> a = b.
Proof. destruct a, b; simpl; intros H; first [reflexivity | discriminate H]. Qed.

Section Coherent.
Variable eval : Expr -> State -> M result.
Hypothesis eval_coherent :
  forall e s out, coherent s -> safe coherent_result (eval e s out).

Lemma evaluate_exprs_coherent exprs : forall acc out,
  coherent_result acc ->
  safe coherent_result (evaluate_exprs eval exprs acc out).
Proof.
  induction exprs as [| expr rest IH]; intros [[v t] s] out [Hv Hs]; simpl.
  - split; assumption.
  - apply (safe_bind coherent_result); [apply eval_coherent; exact Hs |].
    intros acc' o Hacc. apply IH. exact Hacc.
Qed.

Lemma while_loop_coherent n : forall condition body cv s out,
  coherent s ->
  safe coherent (while_loop eval n condition body cv s out).
Proof.
  induction n as [| n IH]; intros condition body cv s out Hs; simpl;
    destruct (truthy cv); simpl; auto.
  apply (safe_bind coherent_result); [apply eval_coherent; exact Hs |].
  intros [[? ?] s1] o1 [_ Hs1].
  apply (safe_bind coherent_result); [apply eval_coherent; exact Hs1 |].
  intros [[cv' ?] s2] o2 [_ Hs2]. apply IH. exact Hs2.
Qed.
End Coherent.

Ltac coherent_operands IH Hs :=
  let lv := fresh "lv" in
  let lt := fresh "lt" in
  let rv := fresh "rv" in
  let rt := fresh "rt" in
  let Hlv := fresh "Hlv" in
  let Hrv := fresh "Hrv" in
  let Hs1 := fresh "Hs1" in
  let Hs2 := fresh "Hs2" in
  let Et := fresh "Et" in
  apply (safe_bind coherent_result); [apply IH; exact Hs |];
  intros [[lv lt] ?] ? [Hlv Hs1];
  apply (safe_bind coherent_result); [apply IH; exact Hs1 |];
  intros [[rv rt] ?] ? [Hrv Hs2];
  try (destruct (py_eq rv (PyInt 0)) eqn:Ez; [simpl; discriminate |]);
  destruct (Type_neb lt rt) eqn:Et; [simpl; discriminate |];
  apply Type_neb_false in Et; rewrite <- Hlv, <- Hrv in Et; subst lt rt;
  destruct lv, rv; simpl in Et; try discriminate Et; clear Et.

Theorem evaluate_coherent n : forall expression state out,
  coherent state ->
  safe coherent_result (evaluate n expression state out).
Proof.
  induction n as [| n IH]; intros expression state out Hs; [exact I |].
  destruct expression; simpl.
  - split; [reflexivity | exact Hs].
  - split; [reflexivity | exact Hs].
  - split; [reflexivity | exact Hs].
  - split; [reflexivity | exact Hs].
  - split; [reflexivity | exact Hs].
  - (* Print *)
    apply (safe_bind coherent_result); [apply IH; exact Hs |].
    intros [[v t] s1] o1 Hr. destruct t; exact Hr.
  - (* Sequence *)
    apply evaluate_exprs_coherent; [exact IH |].
    split; [reflexivity | exact Hs].
  - (* Program *)
    apply evaluate_exprs_coherent; [exact IH |].
    split; [reflexivity | exact Hs].
  - (* Variable *)
    destruct (get_value state variable_name) as [[v t] |] eqn:E; simpl.
    + split; [exact (get_value_coherent _ _ _ _ Hs E) | exact Hs].
    + discriminate.
  - (* Assign *)
    apply (safe_bind coherent_result); [apply IH; exact Hs |].
    intros [[v t] s1] o1 [Hv Hs1].
    destruct (Type_neb_opt _ _ && _); simpl; [discriminate |].
    repeat split; assumption.
  - (* Add *)
    coherent_operands IH Hs; simpl; try discriminate; split; auto.
  - (* Subtract *)
    coherent_operands IH Hs; simpl; try discriminate; split; auto.
  - (* Multiply *)
    coherent_operands IH Hs; simpl; try discriminate; split; auto.
  - (* Divide *)
    coherent_operands IH Hs; simpl; try discriminate.
    + rewrite py_eq_int_zero in Ez. unfold py_floordiv; simpl.
      rewrite Ez. split; auto.
    + rewrite py_eq_float_zero in Ez. rewrite Ez. split; auto.
  - (* And *)
    coherent_operands IH Hs; simpl; try discriminate.
    split; [destruct b; reflexivity | assumption].
  - (* Or *)
    coherent_operands IH Hs; simpl; try discriminate.
    split; [destruct b; reflexivity | assumption].
  - (* Not *)
    apply (safe_bind coherent_result); [apply IH; exact Hs |].
    intros [[v t] s1] o1 [Hv Hs1].
    destruct t; simpl; try discriminate. split; auto.
  - (* If *)
    apply (safe_bind coherent_result); [apply IH; exact Hs |].
    intros [[cv ct] s1] o1 [Hv Hs1].
    destruct ct; try (simpl; discriminate).
    apply (safe_bind coherent_result); [apply IH; exact Hs1 |].
    intros [[tv tt] s2] o2 [Htv Hs2].
    apply (safe_bind coherent_result); [apply IH; exact Hs2 |].
    intros [[fv ft] s3] o3 [Hfv Hs3].
    destruct (py_eq cv (PyBool true)); split; assumption.
  - coherent_operands IH Hs; simpl; split; auto.
  - coherent_operands IH Hs; simpl; split; auto.
  - coherent_operands IH Hs; simpl; split; auto.
  - coherent_operands IH Hs; simpl; split; auto.
  - coherent_operands IH Hs; simpl; split; auto.
  - coherent_operands IH Hs; simpl; split; auto.
  - (* While *)
    apply (safe_bind coherent_result); [apply IH; exact Hs |].
    intros [[cv ct] s1] o1 [Hv Hs1].
    apply (safe_bind coherent).
    + destruct ct; try (simpl; discriminate).
      apply while_loop_coherent; [exact IH | exact Hs1].
    + intros s2 o2 Hs2. split; [reflexivity | exact Hs2].
Qed.

(** A run of a whole program raises no [HostError]. *)
Corollary run_stimpl_no_host_error fuel program out :
  run_stimpl fuel program <> Raised HostError out.
Proof.
  unfold run_stimpl. intros H.
  pose proof (evaluate_coherent fuel program EmptyState [] I) as S.
  rewrite H in S. apply S. reflexivity.
Qed.

(** ** What every evaluation keeps

    A property [I] of states that survives each extension [Assign] can
    make, and a property [J] of the output that survives each line
    [Print] can write, hold after [evaluate] when they held before. The
    properties of the state and of the output below are instances. *)

Lemma ensures_bind {A B : Type} (Pa : A -> stdout -> Prop)
    (Pb : B -> stdout -> Prop) (Q : stdout -> Prop)
    (m : M A) (k : A -> M B) out :
  ensures Pa Q (m out) ->
  (forall a o, Pa a o -> ensures Pb Q (k a o)) ->
  ensures Pb Q (bind m k out).
Proof.
  unfold bind. intros Hm Hk.
  destruct (m out) as [a o | e o |]; simpl in *; auto.
Qed.

(** The outcome of a binary node by the outcomes of its operands. *)
Lemma binary_cases op n l r s out :
  match evaluate n l s out with
  | Returned (lv, lt, s1) o1 =>
      match evaluate n r s1 o1 with
      | Returned (rv, rt, s2) o2 =>
          (exists e, evaluate (S n) (binary op l r) s out = Raised e o2)
          \/ (exists v t,
                evaluate (S n) (binary op l r) s out = Returned (v, t, s2) o2)
      | Raised e o2 => evaluate (S n) (binary op l r) s out = Raised e o2
      | OutOfFuel => evaluate (S n) (binary op l r) s out = OutOfFuel
      end
  | Raised e o1 => evaluate (S n) (binary op l r) s out = Raised e o1
  | OutOfFuel => evaluate (S n) (binary op l r) s out = OutOfFuel
  end.
Proof.
  destruct (evaluate n l s out) as [[[lv lt] s1] o1 | e o1 |] eqn:El;
    [| destruct op; simpl; unfold bind; rewrite El; reflexivity ..].
  destruct (evaluate n r s1 o1) as [[[rv rt] s2] o2 | e o2 |] eqn:Er;
    [| destruct op; simpl; unfold bind; rewrite El, Er; reflexivity ..].
  exact (binary_after_operands op n _ _ _ _ _ _ _ _ _ _ _ _ El Er).
Qed.

Section Invariant.
Variable I : State -> Prop.
Variable J : stdout -> Prop.
Variable assignable : string -> bool.
Variable may_print : bool.
Hypothesis I_set_value :
  forall s name v t,
    assignable name = true ->
    I s ->
    (forall pv pt, get_value s name = Some (pv, pt) -> pt = t) ->
    I (set_value s name v t).
Hypothesis J_print :
  may_print = true -> forall o l, J o -> J (o ++ [l])%list.

Lemma evaluate_exprs_keeps eval exprs :
  (forall e s out, In e exprs -> I s -> J out -> keeps I J (eval e s out)) ->
  forall acc out,
    I (snd acc) -> J out ->
    keeps I J (evaluate_exprs eval exprs acc out).
Proof.
  induction exprs as [| expr rest IH]; intros Heval [[v t] s] out HI HJ; simpl.
  - split; assumption.
  - apply (ensures_bind (fun a o => I (snd a) /\ J o)).
    + apply Heval; [left; reflexivity | exact HI | exact HJ].
    + intros acc' o [HI' HJ']. apply IH; auto.
      intros e s0 out0 Hin. apply Heval. right. exact Hin.
Qed.

Lemma while_loop_keeps eval condition body :
  (forall s out, I s -> J out -> keeps I J (eval condition s out)) ->
  (forall s out, I s -> J out -> keeps I J (eval body s out)) ->
  forall n cv s out,
    I s -> J out ->
    ensures (fun s' o => I s' /\ J o) J
            (while_loop eval n condition body cv s out).
Proof.
  intros Hc Hb. induction n as [| n IH]; intros cv s out HI HJ; simpl;
    destruct (truthy cv); simpl; auto.
  apply (ensures_bind (fun a o => I (snd a) /\ J o)); [apply Hb; auto |].
  intros [[? ?] s1] o1 [HI1 HJ1].
  apply (ensures_bind (fun a o => I (snd a) /\ J o)); [apply Hc; auto |].
  intros [[cv' ?] s2] o2 [HI2 HJ2]. apply IH; auto.
Qed.

Lemma binary_keeps op n l r s out :
  (forall s' out', I s' -> J out' -> keeps I J (evaluate n l s' out')) ->
  (forall s' out', I s' -> J out' -> keeps I J (evaluate n r s' out')) ->
  I s -> J out ->
  keeps I J (evaluate (S n) (binary op l r) s out).
Proof.
  intros Hl Hr HI HJ.
  pose proof (binary_cases op n l r s out) as C.
  pose proof (Hl s out HI HJ) as Kl.
  destruct (evaluate n l s out) as [[[lv lt] s1] o1 | e o1 |];
    [| rewrite C; exact Kl ..].
  destruct Kl as [HI1 HJ1]. pose proof (Hr s1 o1 HI1 HJ1) as Kr.
  destruct (evaluate n r s1 o1) as [[[rv rt] s2] o2 | e o2 |];
    [| rewrite C; exact Kr ..].
  destruct Kr as [HI2 HJ2].
  destruct C as [[e C] | [v [t C]]]; rewrite C; simpl; auto.
Qed.
Lemma forallb_In {A : Type} (f : A -> bool) (l : list A) (a : A) :
  forallb f l = true -> In a l -> f a = true.
Proof. intros H Hin. rewrite forallb_forall in H. apply H. exact Hin. Qed.

Theorem evaluate_keeps n : forall e s out,
  uses_only assignable may_print e = true ->
  I s -> J out ->
  keeps I J (evaluate n e s out).
Proof.
  induction n as [| n IH]; intros e s out Hu HI HJ; [exact Logic.I |].
  destruct e; simpl in Hu;
    repeat match type of Hu with
      | _ && _ = true => let H := fresh "Hu" in
                         apply andb_prop in Hu; destruct Hu as [Hu H]
      end;
    try (match goal with
         | |- context [evaluate _ (?c ?l ?r)] =>
             first [ change (c l r) with (binary OpAdd l r)
                   | change (c l r) with (binary OpSubtract l r)
                   | change (c l r) with (binary OpMultiply l r)
                   | change (c l r) with (binary OpDivide l r)
                   | change (c l r) with (binary OpAnd l r)
                   | change (c l r) with (binary OpOr l r)
                   | change (c l r) with (binary OpLt l r)
                   | change (c l r) with (binary OpLte l r)
                   | change (c l r) with (binary OpGt l r)
                   | change (c l r) with (binary OpGte l r)
                   | change (c l r) with (binary OpEq l r)
                   | change (c l r) with (binary OpNe l r) ]
         end; apply binary_keeps; auto);
    simpl.
  - split; assumption.
  - split; assumption.
  - split; assumption.
  - split; assumption.
  - split; assumption.
  - (* Print *)
    apply (ensures_bind (fun a o => I (snd a) /\ J o)); [apply IH; auto |].
    intros [[v t] s1] o1 [HI1 HJ1].
    destruct t; (split; [exact HI1 | apply J_print; assumption]).
  - (* Sequence *)
    apply evaluate_exprs_keeps; auto.
    intros e s0 out0 Hin. apply IH. exact (forallb_In _ _ _ Hu Hin).
  - (* Program *)
    apply evaluate_exprs_keeps; auto.
    intros e s0 out0 Hin. apply IH. exact (forallb_In _ _ _ Hu Hin).
  - (* Variable *)
    destruct (get_value s variable_name) as [[v t] |]; simpl; auto.
  - (* Assign *)
    apply (ensures_bind (fun a o => I (snd a) /\ J o)); [apply IH; auto |].
    intros [[v t] s1] o1 [HI1 HJ1]. simpl in HI1.
    destruct (Type_neb_opt _ _ && _) eqn:E; simpl; [exact HJ1 |].
    split; [| exact HJ1]. apply I_set_value; auto.
    intros pv pt Hg. rewrite Hg in E. simpl in E.
    rewrite andb_true_r in E. symmetry. apply Type_neb_false. exact E.
  - (* Not *)
    apply (ensures_bind (fun a o => I (snd a) /\ J o)); [apply IH; auto |].
    intros [[v t] s1] o1 [HI1 HJ1]. destruct t; simpl; auto.
  - (* If *)
    apply (ensures_bind (fun a o => I (snd a) /\ J o)); [apply IH; auto |].
    intros [[cv ct] s1] o1 [HI1 HJ1]. destruct ct; simpl; auto.
    apply (ensures_bind (fun a o => I (snd a) /\ J o)); [apply IH; auto |].
    intros [[tv tt] s2] o2 [HI2 HJ2].
    apply (ensures_bind (fun a o => I (snd a) /\ J o)); [apply IH; auto |].
    intros [[fv ft] s3] o3 [HI3 HJ3].
    destruct (py_eq cv (PyBool true)); simpl; auto.
  - (* While *)
    apply (ensures_bind (fun a o => I (snd a) /\ J o)); [apply IH; auto |].
    intros [[cv ct] s1] o1 [HI1 HJ1].
    apply (ensures_bind (fun s' o => I s' /\ J o)).
    + destruct ct; simpl; auto. apply while_loop_keeps; auto.
    + intros s2 o2 [HI2 HJ2]. simpl; auto.
Qed.
End Invariant.

Lemma uses_only_anything : forall e, uses_only (fun _ => true) true e = true.
Proof.
  fix IH 1. intros e. destruct e; simpl; rewrite ?IH; try reflexivity.
  - induction exprs as [| a exprs IHl]; simpl; [reflexivity |].
    rewrite IH. exact IHl.
  - induction exprs as [| a exprs IHl]; simpl; [reflexivity |].
    rewrite IH. exact IHl.
Qed.

Lemma evaluates_keeps (I : State -> Prop) (J : stdout -> Prop)
    assignable may_print e s out r :
  (forall s name v t,
      assignable name = true -> I s ->
      (forall pv pt, get_value s name = Some (pv, pt) -> pt = t) ->
      I (set_value s name v t)) ->
  (may_print = true -> forall o l, J o -> J (o ++ [l])%list) ->
  uses_only assignable may_print e = true ->
  I s -> J out ->
  evaluates e s out r ->
  keeps I J r.
Proof.
  intros HI HJ Hu Hs Hout [_ [n Hn]]. subst r.
  apply (evaluate_keeps I J assignable may_print HI HJ); assumption.
Qed.

(** ** The state after an evaluation *)

(** X2. An evaluation that returns has only added bindings in front of the
    chain it was given: no binding is removed, replaced or reordered. *)
Theorem evaluate_only_extends e s out v t s' out' :
  evaluates e s out (Returned (v, t, s') out') ->
  exists added, bindings s' = (added ++ bindings s)%list.
Proof.
  intros H.
  apply (evaluates_keeps
           (fun s' => exists added, bindings s' = (added ++ bindings s)%list)
           (fun _ => True) (fun _ => true) true) in H; auto.
  - apply H.
  - intros s1 name v1 t1 _ [added Ha] _. exists ((name, (v1, t1)) :: added).
    simpl. rewrite Ha. reflexivity.
  - apply uses_only_anything.
  - exists []. reflexivity.
Qed.

Lemma evaluate_only_extends_witness :
  exists added,
    bindings (Frame "b" (PyStr "no", String)
                (Frame "a" (PyInt 1, Integer)
                   (Frame "z" (PyBool true, Boolean) EmptyState)))
    = (added ++ bindings (Frame "z" (PyBool true, Boolean) EmptyState))%list.
Proof.
  apply (evaluate_only_extends
           (If (BooleanLiteral true)
               (Assign "a" (IntLiteral 1)) (Assign "b" (StringLiteral "no")))
           (Frame "z" (PyBool true, Boolean) EmptyState) []
           (PyInt 1) Integer _ []).
  apply (evaluates_intro 3); [reflexivity | discriminate].
Defined.

(** X3. A name that is bound stays bound, and to a value of the same type:
    an evaluation that returns changes the type of no variable. *)
Theorem evaluate_keeps_variable_types e s out v t s' out' name pv pt :
  evaluates e s out (Returned (v, t, s') out') ->
  get_value s name = Some (pv, pt) ->
  exists pv', get_value s' name = Some (pv', pt).
Proof.
  intros H Hg.
  apply (evaluates_keeps
           (fun s' => exists pv', get_value s' name = Some (pv', pt))
           (fun _ => True) (fun _ => true) true) in H; auto.
  - apply H.
  - intros s1 name1 v1 t1 _ [pv' Hpv] Hcompat. simpl.
    destruct (String.eqb_spec name1 name) as [-> | _]; [| exists pv'; exact Hpv].
    exists v1. rewrite (Hcompat _ _ Hpv). reflexivity.
  - apply uses_only_anything.
  - exists pv. exact Hg.
Qed.

Lemma evaluate_keeps_variable_types_witness :
  exists pv',
    get_value (Frame "x" (PyInt 5, Integer)
                 (Frame "x" (PyInt 4, Integer) EmptyState)) "x"
    = Some (pv', Integer).
Proof.
  apply (evaluate_keeps_variable_types
           (Assign "x" (Add (Variable_ "x") (IntLiteral 1)))
           (Frame "x" (PyInt 4, Integer) EmptyState) []
           (PyInt 5) Integer _ [] "x" (PyInt 4) Integer).
  - apply (evaluates_intro 3); [reflexivity | discriminate].
  - reflexivity.
Defined.

Lemma get_value_In s name value :
  get_value s name = Some value -> In (name, value) (bindings s).
Proof.
  induction s as [| n vt next IH]; simpl; [discriminate |].
  destruct (String.eqb_spec n name) as [-> | _].
  - intros H. injection H as ->. left. reflexivity.
  - intros H. right. apply IH. exact H.
Qed.

Lemma In_bindings_bound s name value :
  In (name, value) (bindings s) ->
  exists value', get_value s name = Some value'
                 /\ In (name, value') (bindings s).
Proof.
  induction s as [| n vt next IH]; simpl; [contradiction |].
  intros Hin. destruct (String.eqb_spec n name) as [-> | Hne].
  - exists vt. split; [reflexivity | left; reflexivity].
  - destruct Hin as [Heq | Hin]; [congruence |].
    destruct (IH Hin) as [value' [Hg Hin']].
    exists value'. split; [exact Hg | right; exact Hin'].
Qed.

(** Extending a chain with a binding of the type its name already has
    keeps one type per name. *)
Lemma one_type_per_name_set_value s name v t :
  one_type_per_name s ->
  (forall pv pt, get_value s name = Some (pv, pt) -> pt = t) ->
  one_type_per_name (set_value s name v t).
Proof.
  intros H1 Hcompat n va ta vb tb. simpl.
  assert (Hold : forall vc tc, In (name, (vc, tc)) (bindings s) -> tc = t).
  { intros vc tc Hin.
    destruct (In_bindings_bound _ _ _ Hin) as [[vd td] [Hg Hin']].
    rewrite <- (Hcompat _ _ Hg). exact (H1 _ _ _ _ _ Hin Hin'). }
  intros [Ha | Ha] [Hb | Hb].
  - congruence.
  - injection Ha as <- _ <-. symmetry. exact (Hold _ _ Hb).
  - injection Hb as <- _ <-. exact (Hold _ _ Ha).
  - exact (H1 _ _ _ _ _ Ha Hb).
Qed.

(** X4. When all bindings of each name have one type in the state given,
    they have one type in the state returned: along the whole chain a
    variable never changes its type. The chain of [run_stimpl], which
    starts empty, is such a chain. *)
Theorem evaluate_keeps_one_type_per_name e s out v t s' out' :
  one_type_per_name s ->
  evaluates e s out (Returned (v, t, s') out') ->
  one_type_per_name s'.
Proof.
  intros Hs H.
  apply (evaluates_keeps one_type_per_name (fun _ => True)
                         (fun _ => true) true) in H; auto.
  - apply H.
  - intros s1 name v1 t1 _. apply one_type_per_name_set_value.
  - apply uses_only_anything.
Qed.

Lemma evaluate_keeps_one_type_per_name_witness :
  one_type_per_name
    (Frame "x" (PyInt 1, Integer) (Frame "x" (PyInt 0, Integer) EmptyState)).
Proof.
  apply (evaluate_keeps_one_type_per_name
           (Program [Assign "x" (IntLiteral 0);
                     Assign "x" (Add (Variable_ "x") (IntLiteral 1))])
           EmptyState [] (PyInt 1) Integer _ []).
  - intros name v1 t1 v2 t2 H. contradiction H.
  - apply (evaluates_intro 4); [reflexivity | discriminate].
Defined.

(** X5. An expression with no [Assign] node for a name leaves the binding of
    that name as it was, whatever else it assigns. *)
Theorem evaluate_leaves_other_names e s out v t s' out' name :
  leaves_alone name e = true ->
  evaluates e s out (Returned (v, t, s') out') ->
  get_value s' name = get_value s name.
Proof.
  intros Hu H.
  apply (evaluates_keeps (fun s' => get_value s' name = get_value s name)
                         (fun _ => True)
                         (fun n => negb (String.eqb n name)) true) in H; auto.
  - apply H.
  - intros s1 name1 v1 t1 Hne H1 _. simpl.
    apply negb_true_iff in Hne. rewrite Hne. exact H1.
Qed.

Lemma evaluate_leaves_other_names_witness :
  get_value (Frame "y" (PyInt 2, Integer)
               (Frame "x" (PyStr "kept", String) EmptyState)) "x"
  = get_value (Frame "x" (PyStr "kept", String) EmptyState) "x".
Proof.
  apply (evaluate_leaves_other_names
           (While (Eq (Assign "y" (IntLiteral 2)) (IntLiteral 0)) Ren)
           (Frame "x" (PyStr "kept", String) EmptyState) []
           (PyBool false) Boolean _ [] "x").
  - reflexivity.
  - apply (evaluates_intro 4); [reflexivity | discriminate].
Defined.

(** X6. An expression with no [Assign] node returns the state it was given. *)
Theorem evaluate_assign_free e s out v t s' out' :
  assign_free e = true ->
  evaluates e s out (Returned (v, t, s') out') ->
  s' = s.
Proof.
  intros Hu H.
  apply (evaluates_keeps (fun s' => s' = s) (fun _ => True)
                         (fun _ => false) true) in H; auto.
  - apply H.
  - intros s1 name1 v1 t1 Hf. discriminate Hf.
Qed.

Lemma evaluate_assign_free_witness :
  Frame "x" (PyInt 3, Integer) EmptyState
  = Frame "x" (PyInt 3, Integer) EmptyState.
Proof.
  apply (evaluate_assign_free
           (If (Lt (Variable_ "x") (IntLiteral 5))
               (Print (Variable_ "x")) (Multiply (Variable_ "x") (IntLiteral 2)))
           (Frame "x" (PyInt 3, Integer) EmptyState) []
           (PyInt 3) Integer _ [Formatted (PyInt 3)]).
  - reflexivity.
  - apply (evaluates_intro 4); [reflexivity | discriminate].
Defined.

(** ** The output of an evaluation *)

(** X7. An evaluation only appends to the output, whether it returns or
    raises: what was printed before stays, in its order. *)
Theorem evaluate_appends_output e s out r :
  evaluates e s out r ->
  exists added, output_of r = (out ++ added)%list.
Proof.
  intros H. pose proof H as [Hr _].
  apply (evaluates_keeps (fun _ => True)
                         (fun o => exists added, o = (out ++ added)%list)
                         (fun _ => true) true) in H; auto.
  - destruct r as [[[? ?] ?] o | ? o |]; simpl in *;
      [apply H | exact H | contradiction].
  - intros _ o l [added Ha]. exists (added ++ [l])%list.
    rewrite Ha, app_assoc. reflexivity.
  - apply uses_only_anything.
  - exists []. rewrite app_nil_r. reflexivity.
Qed.

Lemma evaluate_appends_output_witness :
  exists added,
    output_of
      (Raised (A := result) InterpSyntaxError
              [Text "before"; Formatted (PyInt 1)])
    = ([Text "before"] ++ added)%list.
Proof.
  apply (evaluate_appends_output
           (Sequence [Print (IntLiteral 1); Variable_ "missing"])
           EmptyState [Text "before"]).
  apply (evaluates_intro 3); [reflexivity | discriminate].
Defined.

(** X8. An expression with no [Print] node prints nothing, whether it
    returns or raises. *)
Theorem evaluate_print_free e s out r :
  print_free e = true ->
  evaluates e s out r ->
  output_of r = out.
Proof.
  intros Hu H. pose proof H as [Hr _].
  apply (evaluates_keeps (fun _ => True) (fun o => o = out)
                         (fun _ => true) false) in H; auto.
  - destruct r as [[[? ?] ?] o | ? o |]; simpl in *;
      [apply H | exact H | contradiction].
  - intros Hf. discriminate Hf.
Qed.

Lemma evaluate_print_free_witness :
  output_of (Raised (A := result) InterpMathError [Text "before"])
  = [Text "before"].
Proof.
  apply (evaluate_print_free
           (Divide (Assign "x" (IntLiteral 1)) (IntLiteral 0))
           EmptyState [Text "before"]).
  - reflexivity.
  - apply (evaluates_intro 3); [reflexivity | discriminate].
Defined.

(** ** Type tags and exceptions *)



(** ** While *)

Lemma while_loop_ends eval c b n : forall cv s out s' out',
  while_loop eval n c b cv s out = Returned s' out' ->
  (truthy cv = false /\ s' = s /\ out' = out)
  \/ (exists s0 o0 cv' ct',
        eval c s0 o0 = Returned (cv', ct', s') out' /\ truthy cv' = false).
Proof.
  induction n as [| n IH]; intros cv s out s' out' H; simpl in H;
    destruct (truthy cv) eqn:Ecv; try discriminate;
    try (injection H as <- <-; left; auto).
  unfold bind in H.
  destruct (eval b s out) as [[[bv bt] s1] o1 | |]; try discriminate.
  destruct (eval c s1 o1) as [[[cv' ct'] s2] o2 | |] eqn:Ec;
    try discriminate.
  destruct (IH _ _ _ _ _ H) as [[Hf [-> ->]] | Hlater].
  - right. exists s1, o1, cv', ct'. split; assumption.
  - right. exact Hlater.
Qed.

(** X9. A [While] that returns returns [False] with the type Boolean, and
    the state and output it returns are those of an evaluation of its
    condition that gave a value which is not true: the loop ends on the
    condition only. *)
Theorem while_returns_after_false_condition c b s out v t s' out' :
  evaluates (While c b) s out (Returned (v, t, s') out') ->
  v = PyBool false /\ t = Boolean
  /\ exists s0 o0 cv ct,
       evaluates c s0 o0 (Returned (cv, ct, s') out') /\ truthy cv = false.
Proof.
  intros [_ [n Hn]]. destruct n as [| n]; [discriminate |].
  simpl in Hn. unfold bind in Hn.
  destruct (evaluate n c s out) as [[[cv ct] s1] o1 | |] eqn:Ec;
    try discriminate.
  destruct ct; try discriminate.
  destruct (while_loop (evaluate n) n c b cv s1 o1) as [s2 o2 | |] eqn:El;
    try discriminate.
  injection Hn as <- <- <- <-. repeat split.
  destruct (while_loop_ends _ _ _ _ _ _ _ _ _ El)
    as [[Hf [-> ->]] | [s0 [o0 [cv' [ct' [Ec' Hf]]]]]].
  - exists s, out, cv, Boolean.
    split; [apply (evaluates_intro n); [exact Ec | discriminate] | exact Hf].
  - exists s0, o0, cv', ct'.
    split; [apply (evaluates_intro n); [exact Ec' | discriminate] | exact Hf].
Qed.

Lemma while_returns_after_false_condition_witness :
  PyBool false = PyBool false /\ Boolean = Boolean
  /\ exists s0 o0 cv ct,
       evaluates (Lt (Variable_ "i") (IntLiteral 2)) s0 o0
         (Returned (cv, ct,
                    set_values EmptyState "i"
                      [(PyInt 0, Integer); (PyInt 1, Integer);
                       (PyInt 2, Integer)]) [])
       /\ truthy cv = false.
Proof.
  apply (while_returns_after_false_condition
           (Lt (Variable_ "i") (IntLiteral 2))
           (Assign "i" (Add (Variable_ "i") (IntLiteral 1)))
           (Frame "i" (PyInt 0, Integer) EmptyState) []).
  apply (evaluates_intro 5); [reflexivity | discriminate].
Defined.

(** X10. A [While] whose condition first evaluates to a Boolean that is not
    true returns at once, with the state and output of that evaluation:
    the body is not evaluated, whatever it is. An exception of the
    condition is the outcome of the [While]. *)
Theorem while_false_skips_body c b s out :
  (forall cv s1 o1,
      evaluates c s out (Returned (cv, Boolean, s1) o1) ->
      truthy cv = false ->
      evaluates (While c b) s out (Returned (PyBool false, Boolean, s1) o1))
  /\ (forall e o1,
      evaluates c s out (Raised e o1) ->
      evaluates (While c b) s out (Raised e o1)).
Proof.
  split.
  - intros cv s1 o1 [_ [n Hn]] Hf. run_node n. rewrite Hn.
    destruct n; simpl; rewrite Hf; reflexivity.
  - intros e o1 [_ [n Hn]]. run_node n. rewrite Hn. reflexivity.
Qed.

Lemma while_false_skips_body_witness :
  evaluates (While (BooleanLiteral false) (Variable_ "missing")) EmptyState []
            (Returned (PyBool false, Boolean, EmptyState) []).
Proof.
  destruct (while_false_skips_body
              (BooleanLiteral false) (Variable_ "missing") EmptyState [])
    as [H _].
  apply (H (PyBool false)); [| reflexivity].
  apply (evaluates_intro 1); [reflexivity | discriminate].
Defined.

Lemma While_at_fuel n c b s out cv s1 o1 :
  evaluate n c s out = Returned (cv, Boolean, s1) o1 ->
  evaluate (S n) (While c b) s out
  = bind (while_loop (evaluate n) n c b cv s1)
         (fun new_state => ret (PyBool false, Boolean, new_state)) o1.
Proof. intros H. simpl. unfold bind at 1. rewrite H. reflexivity. Qed.

Lemma while_loop_step eval m c b cv s1 o1 bv bt s2 o2 cv' ct' s3 o3 :
  truthy cv = true ->
  eval b s1 o1 = Returned (bv, bt, s2) o2 ->
  eval c s2 o2 = Returned (cv', ct', s3) o3 ->
  while_loop eval (S m) c b cv s1 o1 = while_loop eval m c b cv' s3 o3.
Proof.
  intros Ht Hb Hc. simpl. rewrite Ht. unfold bind. rewrite Hb, Hc.
  reflexivity.
Qed.

Lemma while_loop_more n n' m m' c b cv s out r :
  while_loop (evaluate n) m c b cv s out = r ->
  r <> OutOfFuel ->
  (n <= n')%nat -> (m <= m')%nat ->
  while_loop (evaluate n') m' c b cv s out = r.
Proof.
  intros H Hr Hn Hm. subst r.
  apply (while_loop_extends (evaluate n) (evaluate n')); auto.
  intros e s0 out0. apply evaluate_extends. exact Hn.
Qed.

(** X11. One turn of the loop. When the condition is true, the body returns
    and the condition, evaluated again, is a Boolean again, the [While]
    from the incoming state ends exactly as the same [While] started
    from the state and output that the body left. (For a condition that
    comes back with another type the two differ: the [While] under way
    goes on by the truth value, the one started afresh raises.) *)
Theorem while_unrolls_one_turn c b s out cv s1 o1 bv bt s2 o2 cv' s3 o3 :
  evaluates c s out (Returned (cv, Boolean, s1) o1) ->
  truthy cv = true ->
  evaluates b s1 o1 (Returned (bv, bt, s2) o2) ->
  evaluates c s2 o2 (Returned (cv', Boolean, s3) o3) ->
  forall r,
    evaluates (While c b) s out r <-> evaluates (While c b) s2 o2 r.
Proof.
  intros Hc Ht Hb Hc' r.
  destruct (common_fuel3 _ _ _ _ _ _ _ _ _ _ _ _ Hc Hb Hc')
    as [n0 [Ec [Eb Ec']]].
  assert (Hfuel : forall N, (n0 <= N)%nat ->
            evaluate N c s out = Returned (cv, Boolean, s1) o1
            /\ evaluate N b s1 o1 = Returned (bv, bt, s2) o2
            /\ evaluate N c s2 o2 = Returned (cv', Boolean, s3) o3).
  { intros N HN. repeat split;
      eapply evaluate_more; eauto; discriminate. }
  split; intros [Hr [m Hm]].
  - (* the loop under way reaches the fresh one *)
    set (N := Nat.max n0 m).
    destruct (Hfuel (S N) ltac:(lia)) as [Fc [Fb Fc']].
    apply (evaluate_more _ (S (S N))) in Hm; [| exact Hr | lia].
    rewrite (While_at_fuel _ _ _ _ _ _ _ _ Fc) in Hm.
    unfold bind in Hm.
    rewrite (while_loop_step _ N _ _ _ _ _ _ _ _ _ _ _ _ _ Ht Fb Fc') in Hm.
    apply (evaluates_intro (S (S N))); [| exact Hr].
    rewrite (While_at_fuel _ _ _ _ _ _ _ _ Fc'). unfold bind.
    destruct (while_loop (evaluate (S N)) N c b cv' s3 o3) as [sf fo | e fo |]
      eqn:El; [| | subst r; contradiction].
    + rewrite (while_loop_more _ (S N) _ (S N) _ _ _ _ _ _ El);
        [exact Hm | discriminate | lia | lia].
    + rewrite (while_loop_more _ (S N) _ (S N) _ _ _ _ _ _ El);
        [exact Hm | discriminate | lia | lia].
  - (* the fresh loop is the rest of the loop under way *)
    set (N := Nat.max n0 m).
    destruct (Hfuel N ltac:(lia)) as [_ [_ Fc']].
    destruct (Hfuel (S N) ltac:(lia)) as [Gc [Gb Gc']].
    apply (evaluate_more _ (S N)) in Hm; [| exact Hr | lia].
    rewrite (While_at_fuel _ _ _ _ _ _ _ _ Fc') in Hm. unfold bind in Hm.
    apply (evaluates_intro (S (S N))); [| exact Hr].
    rewrite (While_at_fuel _ _ _ _ _ _ _ _ Gc). unfold bind.
    rewrite (while_loop_step _ N _ _ _ _ _ _ _ _ _ _ _ _ _ Ht Gb Gc').
    destruct (while_loop (evaluate N) N c b cv' s3 o3) as [sf fo | e fo |]
      eqn:El; [| | subst r; contradiction].
    + rewrite (while_loop_more _ (S N) _ N _ _ _ _ _ _ El);
        [exact Hm | discriminate | lia | lia].
    + rewrite (while_loop_more _ (S N) _ N _ _ _ _ _ _ El);
        [exact Hm | discriminate | lia | lia].
Qed.

Lemma while_unrolls_one_turn_witness :
  evaluates (While (Lt (Variable_ "i") (IntLiteral 2))
                   (Assign "i" (Add (Variable_ "i") (IntLiteral 1))))
            (Frame "i" (PyInt 0, Integer) EmptyState) []
            (Returned (PyBool false, Boolean,
                       set_values EmptyState "i"
                         [(PyInt 0, Integer); (PyInt 1, Integer);
                          (PyInt 2, Integer)]) []).
Proof.
  apply (proj2 (while_unrolls_one_turn
                  (Lt (Variable_ "i") (IntLiteral 2))
                  (Assign "i" (Add (Variable_ "i") (IntLiteral 1)))
                  (Frame "i" (PyInt 0, Integer) EmptyState) []
                  (PyBool true) (Frame "i" (PyInt 0, Integer) EmptyState) []
                  (PyInt 1) Integer
                  (set_values EmptyState "i"
                     [(PyInt 0, Integer); (PyInt 1, Integer)]) []
                  (PyBool true)
                  (set_values EmptyState "i"
                     [(PyInt 0, Integer); (PyInt 1, Integer)]) []
                  ltac:(apply (evaluates_intro 2);
                        [reflexivity | discriminate])
                  eq_refl
                  ltac:(apply (evaluates_intro 3);
                        [reflexivity | discriminate])
                  ltac:(apply (evaluates_intro 2);
                        [reflexivity | discriminate])
                  _)).
  apply (evaluates_intro 4); [reflexivity | discriminate].
Defined.

(** ** Sequence, Program and Print *)

Lemma bind_ret {A : Type} (m : M A) out :
  bind m (fun a => ret a) out = m out.
Proof. unfold bind. destruct (m out); reflexivity. Qed.

Lemma evaluate_exprs_app eval xs ys : forall acc out,
  evaluate_exprs eval (xs ++ ys) acc out
  = bind (evaluate_exprs eval xs acc)
         (fun acc' => evaluate_exprs eval ys acc') out.
Proof.
  induction xs as [| x xs IH]; intros [[v t] s] out; simpl.
  - reflexivity.
  - unfold bind. destruct (eval x s out) as [acc' o | e o |];
      [rewrite IH; reflexivity | reflexivity | reflexivity].
Qed.

(** X12. The empty [Sequence] returns [None] with the type Unit and the state
    unchanged; a [Sequence] of one expression ends as that expression
    does; a [Program] ends as the [Sequence] of its expressions does. *)
Theorem sequence_empty_single_program s out :
  (forall r,
      evaluates (Sequence []) s out r <-> r = Returned (PyNone, Unit, s) out)
  /\ (forall e r,
      evaluates (Sequence [e]) s out r <-> evaluates e s out r)
  /\ (forall exprs r,
      evaluates (Program exprs) s out r <-> evaluates (Sequence exprs) s out r).
Proof.
  split; [| split].
  - intros r. split.
    + intros [Hr [n Hn]]. destruct n; [symmetry in Hn; contradiction |].
      symmetry. exact Hn.
    + intros ->. apply (evaluates_intro 1); [reflexivity | discriminate].
  - intros e r. split; intros [Hr [n Hn]].
    + destruct n; [symmetry in Hn; contradiction |].
      simpl in Hn. rewrite bind_ret in Hn.
      apply (evaluates_intro n); assumption.
    + apply (evaluates_intro (S n)); [| exact Hr].
      simpl. rewrite bind_ret. exact Hn.
  - intros exprs r. split; intros [Hr [n Hn]];
      (apply (evaluates_intro n); [| exact Hr]);
      destruct n; exact Hn.
Qed.

(** X13. Running [xs ++ ys] is running [xs] and then [ys] from where [xs]
    ended: an exception of [xs] ends the whole, and when [xs] returns and
    [ys] is not empty the whole ends as [ys] ends from the state and
    output that [xs] left (the value of [xs] is dropped). *)
Theorem sequence_append xs ys s out :
  (forall e o1,
      evaluates (Sequence xs) s out (Raised e o1) ->
      evaluates (Sequence (xs ++ ys)) s out (Raised e o1))
  /\ (forall v t s1 o1,
      evaluates (Sequence xs) s out (Returned (v, t, s1) o1) ->
      ys <> [] ->
      forall r,
        evaluates (Sequence (xs ++ ys)) s out r
        <-> evaluates (Sequence ys) s1 o1 r).
Proof.
  split.
  - intros e o1 [_ [n Hn]]. apply (evaluates_intro n); [| discriminate].
    destruct n; [discriminate |]. simpl in *.
    rewrite evaluate_exprs_app. unfold bind. rewrite Hn. reflexivity.
  - intros v t s1 o1 Hxs Hys r.
    destruct ys as [| y ys]; [contradiction |]. split.
    + intros [Hr [n Hn]]. apply (evaluates_intro n); [| exact Hr].
      destruct n; [symmetry in Hn; contradiction |].
      destruct (evaluates_at_fuel _ _ _ _ (S n) Hxs) as [E | E];
        simpl in *; rewrite evaluate_exprs_app in Hn; unfold bind in Hn;
        rewrite E in Hn; [symmetry in Hn; contradiction | exact Hn].
    + intros Hr.
      destruct (common_fuel2 _ _ _ _ _ _ _ _ Hxs Hr) as [n [Ex Ey]].
      apply (evaluates_intro n); [| exact (proj1 Hr)].
      destruct n; [discriminate |]. simpl in *.
      rewrite evaluate_exprs_app. unfold bind. rewrite Ex. exact Ey.
Qed.

Lemma sequence_append_witness :
  evaluates (Sequence ([Assign "x" (IntLiteral 1)] ++ [Variable_ "x"]))
            EmptyState []
            (Returned (PyInt 1, Integer, Frame "x" (PyInt 1, Integer) EmptyState)
                      []).
Proof.
  destruct (sequence_append [Assign "x" (IntLiteral 1)] [Variable_ "x"]
                            EmptyState []) as [_ H].
  apply (proj2 (H (PyInt 1) Integer (Frame "x" (PyInt 1, Integer) EmptyState) []
                  ltac:(apply (evaluates_intro 3);
                        [reflexivity | discriminate])
                  ltac:(discriminate) _)).
  apply (evaluates_intro 2); [reflexivity | discriminate].
Defined.



(** ** The type checks of the operators *)

(** X15. No coercion: a binary node whose operands returned values of two
    different types raises a Type error, with the state and output of
    the right operand lost and kept respectively. For [Divide] this holds
    when the right value is not zero (a zero goes first). *)
Theorem mismatched_operands_raise op l r s out lv lt s1 o1 rv rt s2 o2 :
  evaluates l s out (Returned (lv, lt, s1) o1) ->
  evaluates r s1 o1 (Returned (rv, rt, s2) o2) ->
  lt <> rt ->
  (op = OpDivide -> py_eq rv (PyInt 0) = false) ->
  evaluates (binary op l r) s out (Raised InterpTypeError o2).
Proof.
  intros Hl Hr Hne Hz.
  destruct (common_fuel2 _ _ _ _ _ _ _ _ Hl Hr) as [n [El Er]].
  apply Type_neb_true in Hne.
  destruct op; run_node n; rewrite El, Er, ?Hz, ?Hne; reflexivity.
Qed.

Lemma mismatched_operands_raise_witness :
  evaluates (Add (IntLiteral 1) (FloatingPointLiteral 1)) EmptyState []
            (Raised InterpTypeError []).
Proof.
  apply (mismatched_operands_raise
           OpAdd (IntLiteral 1) (FloatingPointLiteral 1) EmptyState []
           (PyInt 1) Integer EmptyState []
           (PyFloat 1) FloatingPoint EmptyState []).
  - apply (evaluates_intro 1); [reflexivity | discriminate].
  - apply (evaluates_intro 1); [reflexivity | discriminate].
  - discriminate.
  - discriminate.
Defined.

(** X16. On two operands of one type that the operator does not accept
    ([Add] on Unit or Boolean; [Subtract], [Multiply] and [Divide] on
    Unit, Boolean or String; [And] and [Or] on anything but Boolean) the
    node raises a Type error. *)
Theorem unaccepted_type_raises op l r s out lv t s1 o1 rv s2 o2 :
  evaluates l s out (Returned (lv, t, s1) o1) ->
  evaluates r s1 o1 (Returned (rv, t, s2) o2) ->
  accepts op t = false ->
  (op = OpDivide -> py_eq rv (PyInt 0) = false) ->
  evaluates (binary op l r) s out (Raised InterpTypeError o2).
Proof.
  intros Hl Hr Ha Hz.
  destruct (common_fuel2 _ _ _ _ _ _ _ _ Hl Hr) as [n [El Er]].
  destruct op, t; try discriminate Ha;
    run_node n; rewrite El, Er, ?Hz; reflexivity.
Qed.

Lemma unaccepted_type_raises_witness :
  evaluates (Multiply (StringLiteral "ab") (StringLiteral "c")) EmptyState []
            (Raised InterpTypeError []).
Proof.
  apply (unaccepted_type_raises
           OpMultiply (StringLiteral "ab") (StringLiteral "c") EmptyState []
           (PyStr "ab") String EmptyState [] (PyStr "c") EmptyState []).
  - apply (evaluates_intro 1); [reflexivity | discriminate].
  - apply (evaluates_intro 1); [reflexivity | discriminate].
  - reflexivity.
  - discriminate.
Defined.

(** X17. On two operands of one type that the operator accepts, each value of
    the class of that type, the node returns (for [Divide]: when the
    right value is not zero): a value of the class of its type, which is
    Boolean for the relational nodes and the operands' type otherwise,
    with the state and output of the right operand. *)
Theorem accepted_operands_return op l r s out lv t s1 o1 rv s2 o2 :
  evaluates l s out (Returned (lv, t, s1) o1) ->
  evaluates r s1 o1 (Returned (rv, t, s2) o2) ->
  accepts op t = true ->
  class_of lv = t -> class_of rv = t ->
  (op = OpDivide -> py_eq rv (PyInt 0) = false) ->
  exists v,
    evaluates (binary op l r) s out (Returned (v, result_type op t, s2) o2)
    /\ class_of v = result_type op t.
Proof.
  intros Hl Hr Ha Hlv Hrv Hz.
  destruct (common_fuel2 _ _ _ _ _ _ _ _ Hl Hr) as [n [El Er]].
  assert (Hfin : forall res,
             evaluate (S n) (binary op l r) s out = res ->
             (exists v, res = Returned (v, result_type op t, s2) o2
                        /\ class_of v = result_type op t) ->
             exists v,
               evaluates (binary op l r) s out
                         (Returned (v, result_type op t, s2) o2)
               /\ class_of v = result_type op t).
  { intros res E [v [-> Hv]]. exists v.
    split; [apply (evaluates_intro (S n)); [exact E | discriminate] | exact Hv]. }
  eapply Hfin; [reflexivity |].
  destruct op, t; try discriminate Ha;
    destruct lv; try discriminate Hlv; destruct rv; try discriminate Hrv;
    simpl; unfold bind; rewrite El, Er;
    try (rewrite (Hz eq_refl); specialize (Hz eq_refl);
         first [rewrite py_eq_int_zero in Hz | rewrite py_eq_float_zero in Hz];
         unfold py_floordiv);
    simpl; rewrite ?Hz; simpl;
    try (eexists; split; reflexivity);
    try (destruct b; eexists; split; reflexivity).
Qed.

Lemma accepted_operands_return_witness :
  exists v,
    evaluates (Lt (StringLiteral "ab") (StringLiteral "b")) EmptyState []
              (Returned (v, Boolean, EmptyState) [])
    /\ class_of v = Boolean.
Proof.
  apply (accepted_operands_return
           OpLt (StringLiteral "ab") (StringLiteral "b") EmptyState []
           (PyStr "ab") String EmptyState [] (PyStr "b") EmptyState []).
  - apply (evaluates_intro 1); [reflexivity | discriminate].
  - apply (evaluates_intro 1); [reflexivity | discriminate].
  - reflexivity.
  - reflexivity.
  - reflexivity.
  - discriminate.
Defined.

(** X18. An operand of [Not], or a condition of [If] or of [While], that
    returned a value of another type than Boolean raises a Type error:
    no branch and no body is evaluated, whatever they are. *)
Theorem non_boolean_condition_raises e s out v t s1 o1 :
  evaluates e s out (Returned (v, t, s1) o1) ->
  t <> Boolean ->
  evaluates (Not e) s out (Raised InterpTypeError o1)
  /\ (forall tb fb, evaluates (If e tb fb) s out (Raised InterpTypeError o1))
  /\ (forall b, evaluates (While e b) s out (Raised InterpTypeError o1)).
Proof.
  intros [_ [n Hn]] Ht.
  repeat split; try discriminate; exists (S n); simpl; unfold bind;
    rewrite Hn; destruct t; try reflexivity; contradiction Ht; reflexivity.
Qed.

Lemma non_boolean_condition_raises_witness :
  evaluates (If (IntLiteral 1) (Assign "x" (IntLiteral 1)) Ren) EmptyState []
            (Raised InterpTypeError []).
Proof.
  destruct (non_boolean_condition_raises
              (IntLiteral 1) EmptyState [] (PyInt 1) Integer EmptyState [])
    as [_ [H _]].
  - apply (evaluates_intro 1); [reflexivity | discriminate].
  - discriminate.
  - apply H.
Defined.

(** ** What the operators compute *)

(** X19. [Ne] is the negation of [Eq], also on Unit: one returns a Boolean
    exactly when the other returns its negation, with the same state and
    output. *)
Theorem ne_negates_eq l r s out b s' out' :
  evaluates (Eq l r) s out (Returned (PyBool b, Boolean, s') out')
  <-> evaluates (Ne l r) s out (Returned (PyBool (negb b), Boolean, s') out').
Proof.
  split; intros [_ [n Hn]]; (apply (evaluates_intro n); [| discriminate]);
    (destruct n; [discriminate |]); simpl in *; unfold bind in *;
    destruct (evaluate n l s out) as [[[lv lt] s1] o1 | |]; try discriminate;
    destruct (evaluate n r s1 o1) as [[[rv rt] s2] o2 | |]; try discriminate;
    destruct (Type_neb lt rt); try discriminate;
    destruct lt; simpl in *; unfold py_ne in *;
    injection Hn as Hb <- <-; f_equal; f_equal; f_equal; f_equal.
  all: try (rewrite <- Hb; reflexivity).
  all: try (destruct b; simpl in Hb; first [reflexivity | discriminate Hb]).
  all: destruct (py_eq lv rv), b; simpl in Hb;
    first [reflexivity | discriminate Hb].
Qed.

Lemma py_le_lt_or_eq lv rv x :
  py_lt lv rv = Some (PyBool x) ->
  py_le lv rv = Some (PyBool (x || py_eq lv rv)).
Proof.
  unfold py_lt, py_le, py_eq.
  destruct (py_compare lv rv) as [c |] eqn:E; simpl; [| discriminate].
  intros H. injection H as <-.
  destruct lv, rv; try discriminate E; destruct c; reflexivity.
Qed.

Lemma py_ge_gt_or_eq lv rv x :
  py_gt lv rv = Some (PyBool x) ->
  py_ge lv rv = Some (PyBool (x || py_eq lv rv)).
Proof.
  unfold py_gt, py_ge, py_eq.
  destruct (py_compare lv rv) as [c |] eqn:E; simpl; [| discriminate].
  intros H. injection H as <-.
  destruct lv, rv; try discriminate E; destruct c; reflexivity.
Qed.

(** X20. [Lte] is [Lt] or [Eq], and [Gte] is [Gt] or [Eq], also on Unit and on
    floats that are not numbers: when the strict node and [Eq] return
    Booleans, the other node returns their disjunction. *)
Theorem lte_gte_are_strict_or_eq l r s out x y s' out' :
  evaluates (Eq l r) s out (Returned (PyBool y, Boolean, s') out') ->
  (evaluates (Lt l r) s out (Returned (PyBool x, Boolean, s') out') ->
   evaluates (Lte l r) s out (Returned (PyBool (x || y), Boolean, s') out'))
  /\ (evaluates (Gt l r) s out (Returned (PyBool x, Boolean, s') out') ->
      evaluates (Gte l r) s out (Returned (PyBool (x || y), Boolean, s') out')).
Proof.
  intros He. split; intros Hs;
    destruct (common_fuel2 _ _ _ _ _ _ _ _ He Hs) as [n [Ee Es]];
    (apply (evaluates_intro n); [| discriminate]);
    (destruct n; [discriminate |]); simpl in *; unfold bind in *;
    destruct (evaluate n l s out) as [[[lv lt] s1] o1 | |]; try discriminate;
    destruct (evaluate n r s1 o1) as [[[rv rt] s2] o2 | |]; try discriminate;
    destruct (Type_neb lt rt); try discriminate;
    destruct lt; simpl in *; unfold host in *;
    try (injection Ee as <- <- <-; injection Es as <-; reflexivity).
  all: try (destruct (py_lt lv rv) as [[| | | | x'] |] eqn:El;
            try discriminate Es;
            injection Es as ->; injection Ee as <- <- <-;
            rewrite (py_le_lt_or_eq _ _ _ El); reflexivity).
  all: destruct (py_gt lv rv) as [[| | | | x'] |] eqn:El;
    try discriminate Es;
    injection Es as ->; injection Ee as <- <- <-;
    rewrite (py_ge_gt_or_eq _ _ _ El); reflexivity.
Qed.

Lemma lte_gte_are_strict_or_eq_witness :
  evaluates (Lte (IntLiteral 2) (IntLiteral 2)) EmptyState []
            (Returned (PyBool (false || true), Boolean, EmptyState) []).
Proof.
  destruct (lte_gte_are_strict_or_eq
              (IntLiteral 2) (IntLiteral 2) EmptyState []
              false true EmptyState []) as [H _].
  - apply (evaluates_intro 2); [reflexivity | discriminate].
  - apply H. apply (evaluates_intro 2); [reflexivity | discriminate].
Defined.

(** X21. On Boolean values [And] is the conjunction and [Or] the disjunction
    of the two operands, and [Not] the negation of its operand. *)
Theorem logical_operators_on_booleans l r s out a s1 o1 :
  evaluates l s out (Returned (PyBool a, Boolean, s1) o1) ->
  evaluates (Not l) s out (Returned (PyBool (negb a), Boolean, s1) o1)
  /\ (forall b s2 o2,
      evaluates r s1 o1 (Returned (PyBool b, Boolean, s2) o2) ->
      evaluates (And l r) s out (Returned (PyBool (a && b), Boolean, s2) o2)
      /\ evaluates (Or l r) s out (Returned (PyBool (a || b), Boolean, s2) o2)).
Proof.
  intros Hl. split.
  - destruct Hl as [_ [n Hn]]. run_node n. rewrite Hn. reflexivity.
  - intros b s2 o2 Hr.
    destruct (common_fuel2 _ _ _ _ _ _ _ _ Hl Hr) as [n [El Er]].
    split; run_node n; rewrite El, Er; destruct a; reflexivity.
Qed.

Lemma logical_operators_on_booleans_witness :
  evaluates (Or (BooleanLiteral false) (BooleanLiteral true)) EmptyState []
            (Returned (PyBool (false || true), Boolean, EmptyState) []).
Proof.
  destruct (logical_operators_on_booleans
              (BooleanLiteral false) (BooleanLiteral true) EmptyState []
              false EmptyState []) as [_ H].
  - apply (evaluates_intro 1); [reflexivity | discriminate].
  - apply (H true EmptyState []).
    apply (evaluates_intro 1); [reflexivity | discriminate].
Defined.

(** X22. On Integer values [Add], [Subtract] and [Multiply] return the exact
    sum, difference and product, of any size; on String values [Add]
    returns the concatenation, left operand first. *)
Theorem arithmetic_on_integers_and_strings l r s out s1 o1 s2 o2 :
  (forall a b : Z,
      evaluates l s out (Returned (PyInt a, Integer, s1) o1) ->
      evaluates r s1 o1 (Returned (PyInt b, Integer, s2) o2) ->
      evaluates (Add l r) s out (Returned (PyInt (a + b), Integer, s2) o2)
      /\ evaluates (Subtract l r) s out
                   (Returned (PyInt (a - b), Integer, s2) o2)
      /\ evaluates (Multiply l r) s out
                   (Returned (PyInt (a * b), Integer, s2) o2))
  /\ (forall a b : string,
      evaluates l s out (Returned (PyStr a, String, s1) o1) ->
      evaluates r s1 o1 (Returned (PyStr b, String, s2) o2) ->
      evaluates (Add l r) s out
                (Returned (PyStr (String.append a b), String, s2) o2)).
Proof.
  split.
  - intros a b Hl Hr.
    destruct (common_fuel2 _ _ _ _ _ _ _ _ Hl Hr) as [n [El Er]].
    repeat split; try discriminate;
      exists (S n); simpl; unfold bind; rewrite El, Er; reflexivity.
  - intros a b Hl Hr.
    destruct (common_fuel2 _ _ _ _ _ _ _ _ Hl Hr) as [n [El Er]].
    run_node n. rewrite El, Er. reflexivity.
Qed.

Lemma arithmetic_on_integers_and_strings_witness :
  evaluates (Multiply (IntLiteral (2 ^ 64)) (IntLiteral (2 ^ 64)))
            EmptyState []
            (Returned (PyInt (2 ^ 64 * 2 ^ 64), Integer, EmptyState) [])
  /\ evaluates (Add (StringLiteral "ab") (StringLiteral "c")) EmptyState []
               (Returned (PyStr "abc", String, EmptyState) []).
Proof.
  split.
  - destruct (arithmetic_on_integers_and_strings
                (IntLiteral (2 ^ 64)) (IntLiteral (2 ^ 64)) EmptyState []
                EmptyState [] EmptyState []) as [H _].
    apply (H (2 ^ 64) (2 ^ 64));
      apply (evaluates_intro 1); [reflexivity | discriminate
                                 | reflexivity | discriminate].
  - destruct (arithmetic_on_integers_and_strings
                (StringLiteral "ab") (StringLiteral "c") EmptyState []
                EmptyState [] EmptyState []) as [_ H].
    apply (H "ab" "c");
      apply (evaluates_intro 1); [reflexivity | discriminate
                                 | reflexivity | discriminate].
Defined.

(** ** Lookup and copy *)

(** X24. [get_value] finds the first binding of the name in the chain, the
    most recent one, and nothing when the chain has none. *)
Theorem get_value_is_first_binding s name :
  get_value s name
  = option_map snd
      (find (fun binding => String.eqb (fst binding) name) (bindings s)).
Proof.
  induction s as [| n value next IH]; simpl; [reflexivity |].
  destruct (String.eqb n name); [reflexivity | exact IH].
Qed.

(** X25. A name is unbound exactly when no binding of the chain has it. *)
Theorem get_value_none_iff_unbound s name :
  get_value s name = None
  <-> forall value, ~ In (name, value) (bindings s).
Proof.
  split.
  - intros Hg value Hin.
    destruct (In_bindings_bound _ _ _ Hin) as [value' [Hg' _]]. congruence.
  - intros Hno. destruct (get_value s name) as [value |] eqn:Hg;
      [| reflexivity].
    exfalso. exact (Hno value (get_value_In _ _ _ Hg)).
Qed.

(** [copy] returns a state with the same bindings in the same order: its
    head binding is the one copied and its tail is the tail itself. *)
Theorem copy_keeps_bindings s :
  bindings (copy s) = bindings s
  /\ older 1 (copy s) = older 1 s
  /\ forall name, get_value (copy s) name = get_value s name.
Proof.
  destruct s as [| n [v t] next]; repeat split; reflexivity.
Qed.

(** ** Whole programs *)

(** X27. Whatever [run_stimpl] returns, the value has the class of the type
    returned with it, every binding of the final state carries the type
    of its value's class, and all bindings of one name have one type. *)
Theorem run_stimpl_returns_well_typed fuel program v t s out :
  run_stimpl fuel program = Returned (v, t, s) out ->
  class_of v = t /\ coherent s /\ one_type_per_name s.
Proof.
  unfold run_stimpl. intros H.
  pose proof (evaluate_coherent fuel program EmptyState [] Logic.I) as C.
  rewrite H in C. destruct C as [Hv Hs]. repeat split; try assumption.
  pose proof (evaluate_keeps one_type_per_name (fun _ => True)
                (fun _ => true) true) as K.
  assert (Hk : keeps one_type_per_name (fun _ => True)
                     (evaluate fuel program EmptyState [])).
  { apply K; auto.
    - intros s1 name v1 t1 _. apply one_type_per_name_set_value.
    - apply uses_only_anything.
    - intros name v1 t1 v2 t2 Hin. contradiction Hin. }
  rewrite H in Hk. apply Hk.
Qed.

Lemma run_stimpl_returns_well_typed_witness :
  class_of (PyInt 1) = Integer
  /\ coherent (Frame "x" (PyInt 1, Integer)
                 (Frame "x" (PyInt 0, Integer) EmptyState))
  /\ one_type_per_name (Frame "x" (PyInt 1, Integer)
                           (Frame "x" (PyInt 0, Integer) EmptyState)).
Proof.
  apply (run_stimpl_returns_well_typed
           4 (Program [Assign "x" (IntLiteral 0);
                       Assign "x" (Add (Variable_ "x") (IntLiteral 1))])
           _ _ _ []).
  reflexivity.
Defined.

(** ** Assign and Variable together *)

(** X26. Reading a variable right after an [Assign] to it returns the value
    and type just assigned, from the state the [Assign] returned. *)
Theorem variable_after_assign name value s out v t s' out' :
  evaluates (Assign name value) s out (Returned (v, t, s') out') ->
  evaluates (Variable_ name) s' out' (Returned (v, t, s') out').
Proof.
  intros [_ [n Hn]]. destruct n; [discriminate |].
  simpl in Hn. unfold bind in Hn.
  destruct (evaluate n value s out) as [[[v1 t1] s1] o1 | |];
    try discriminate.
  destruct (Type_neb_opt _ _ && _); try discriminate.
  injection Hn as <- <- <- <-.
  apply (evaluates_intro 1); [| discriminate].
  simpl. rewrite String.eqb_refl. reflexivity.
Qed.

Lemma variable_after_assign_witness :
  evaluates (Variable_ "x") (Frame "x" (PyInt 1, Integer) EmptyState) []
            (Returned (PyInt 1, Integer, Frame "x" (PyInt 1, Integer) EmptyState)
                      []).
Proof.
  apply (variable_after_assign "x" (IntLiteral 1) EmptyState []).
  apply (evaluates_intro 2); [reflexivity | discriminate].
Defined.

(** ** Comparisons *)

(** X23. On Integer values the six relational nodes return the comparisons of
    the integers; on String values [Lt] and [Lte] return the
    lexicographic order of the strings and [Eq] their equality. *)
Theorem relational_on_integers_and_strings l r s out s1 o1 s2 o2 :
  (forall a b : Z,
      evaluates l s out (Returned (PyInt a, Integer, s1) o1) ->
      evaluates r s1 o1 (Returned (PyInt b, Integer, s2) o2) ->
      evaluates (Lt l r) s out (Returned (PyBool (a <? b), Boolean, s2) o2)
      /\ evaluates (Lte l r) s out (Returned (PyBool (a <=? b), Boolean, s2) o2)
      /\ evaluates (Gt l r) s out (Returned (PyBool (b <? a), Boolean, s2) o2)
      /\ evaluates (Gte l r) s out (Returned (PyBool (b <=? a), Boolean, s2) o2)
      /\ evaluates (Eq l r) s out (Returned (PyBool (a =? b), Boolean, s2) o2)
      /\ evaluates (Ne l r) s out
                   (Returned (PyBool (negb (a =? b)), Boolean, s2) o2))
  /\ (forall a b : string,
      evaluates l s out (Returned (PyStr a, String, s1) o1) ->
      evaluates r s1 o1 (Returned (PyStr b, String, s2) o2) ->
      evaluates (Lt l r) s out
                (Returned (PyBool (String.ltb a b), Boolean, s2) o2)
      /\ evaluates (Lte l r) s out
                   (Returned (PyBool (String.leb a b), Boolean, s2) o2)
      /\ evaluates (Eq l r) s out
                   (Returned (PyBool (String.eqb a b), Boolean, s2) o2)).
Proof.
  split.
  - intros a b Hl Hr.
    destruct (common_fuel2 _ _ _ _ _ _ _ _ Hl Hr) as [n [El Er]].
    assert (Hlt : (b <? a) = match a ?= b with Datatypes.Gt => true
                                           | _ => false end).
    { rewrite Z.ltb_antisym. unfold Z.leb. destruct (a ?= b); reflexivity. }
    assert (Hle : (b <=? a) = match a ?= b with Datatypes.Lt => false
                                            | _ => true end).
    { rewrite Z.leb_antisym. unfold Z.ltb. destruct (a ?= b); reflexivity. }
    assert (Hzeq : (a =? b) = match a ?= b with Datatypes.Eq => true
                                            | _ => false end).
    { destruct (Z.compare_spec a b) as [-> | H | H];
        [apply Z.eqb_refl | apply Z.eqb_neq; lia | apply Z.eqb_neq; lia]. }
    repeat split; try discriminate;
      exists (S n); simpl; unfold bind; rewrite El, Er; simpl;
      unfold py_ne, py_eq; simpl; rewrite ?Hlt, ?Hle, ?Hzeq;
      unfold Z.ltb, Z.leb;
      destruct (a ?= b); reflexivity.
  - intros a b Hl Hr.
    destruct (common_fuel2 _ _ _ _ _ _ _ _ Hl Hr) as [n [El Er]].
    assert (Heq : String.eqb a b = match String.compare a b with
                                   | Datatypes.Eq => true | _ => false end).
    { destruct (String.eqb_spec a b) as [-> | Hne].
      - pose proof (String.compare_antisym b b) as H.
        destruct (String.compare b b); simpl in H;
          first [reflexivity | discriminate H].
      - destruct (String.compare a b) eqn:E; try reflexivity.
        apply String.compare_eq_iff in E. contradiction. }
    repeat split; try discriminate;
      exists (S n); simpl; unfold bind; rewrite El, Er; simpl;
      unfold py_lt, py_le, py_eq, String.ltb, String.leb; simpl;
      rewrite ?Heq; destruct (String.compare a b); reflexivity.
Qed.

Lemma relational_on_integers_and_strings_witness :
  evaluates (Lt (IntLiteral (-3)) (IntLiteral 2)) EmptyState []
            (Returned (PyBool (-3 <? 2), Boolean, EmptyState) [])
  /\ evaluates (Lt (StringLiteral "ab") (StringLiteral "b")) EmptyState []
               (Returned (PyBool (String.ltb "ab" "b"), Boolean, EmptyState) []).
Proof.
  split.
  - destruct (relational_on_integers_and_strings
                (IntLiteral (-3)) (IntLiteral 2) EmptyState []
                EmptyState [] EmptyState []) as [H _].
    apply (H (-3) 2);
      apply (evaluates_intro 1); [reflexivity | discriminate
                                 | reflexivity | discriminate].
  - destruct (relational_on_integers_and_strings
                (StringLiteral "ab") (StringLiteral "b") EmptyState []
                EmptyState [] EmptyState []) as [_ H].
    apply (H "ab" "b");
      apply (evaluates_intro 1); [reflexivity | discriminate
                                 | reflexivity | discriminate].
Defined.
